(** * ra-data-provider: the query builder, the response interpreter and the
      operation dispatcher of [createDataProvider], embedded in Rocq.

    The program is TypeScript.  Its data are JavaScript values, so the
    embedding starts with a small model of the values the program handles
    (JSON-like trees), of the object operations it uses (property reads,
    rest destructuring, [Object.assign], [Object.entries]) and of the
    conversions it relies on (truthiness, [String(v)], [toLowerCase]).
    The operations run in a small state-and-exception monad over the
    objects the caller shares with them and the trace of the requests
    handed to the transport.

    Numbers are the integers among JavaScript's doubles, held in [Z]: the
    program only computes [(page - 1) * perPage] on them, which is rounded
    as IEEE 754 does, and prints them.  Strings are byte strings.  Objects
    are association lists in insertion order.  Inherited prototype members
    are not part of the model: every key the program reads is a data
    property.

    Where a definition covers only a part of what JavaScript does, its
    comment says which part, and the statements that depend on it carry the
    matching hypothesis: [safe_integer] and [printable] for the printing of
    numbers, [ascii_only] for [toLowerCase], [integer_like] keys for the
    order of enumeration, a request in the trace for the construction of
    the URL. *)

From Stdlib Require Import ZArith String Ascii List Bool Lia.
From stdpp Require Import base strings gmap list pretty.
Import ListNotations.

Local Open Scope Z_scope.
Local Open Scope string_scope.
Local Open Scope list_scope.
Local Set Warnings "-register-all".

(** ** JavaScript values *)

Module JS.

Inductive value : Type :=
| VUndefined
| VNull
| VBool (b : bool)
| VNum (n : Z)
| VStr (s : string)
| VArr (xs : list value)
| VObj (fields : list (string * value)).

(** An object: its own enumerable properties, in insertion order. *)
Abbreviation obj := (list (string * value)).

(** [!!v] *)
Definition truthy (v : value) : bool :=
  match v with
  | VUndefined | VNull => false
  | VBool b => b
  | VNum n => negb (n =? 0)%Z
  | VStr s => negb (String.eqb s "")
  | VArr _ | VObj _ => true
  end.

(** [v === undefined || v === null] *)
Definition nullish (v : value) : bool :=
  match v with
  | VUndefined | VNull => true
  | _ => false
  end.

(** [typeof v === 'object'] (which holds of [null] too). *)
Definition typeof_object (v : value) : bool :=
  match v with
  | VNull | VArr _ | VObj _ => true
  | _ => false
  end.

(** [String(v)], as used by template literals and computed keys.  A number
    is printed in full decimal, which is what JavaScript prints below
    10^21; from there on JavaScript uses the exponent notation, which is
    not modelled. *)
Fixpoint to_string (v : value) : string :=
  match v with
  | VUndefined => "undefined"
  | VNull => "null"
  | VBool true => "true"
  | VBool false => "false"
  | VNum n => pretty n
  | VStr s => s
  | VArr xs =>
      (fix join (l : list value) : string :=
         match l with
         | [] => ""
         | x :: rest =>
             (if nullish x then "" else to_string x) +:+
             match rest with
             | [] => ""
             | _ :: _ => "," +:+ join rest
             end
         end) xs
  | VObj _ => "[object Object]"
  end.

(** [toLowerCase] on ASCII text: the letters A to Z are lowered and every
    other byte is kept.  On text outside ASCII JavaScript also lowers the
    other capital letters of Unicode, which is not modelled. *)
Definition lower_ascii (c : ascii) : ascii :=
  let n := nat_of_ascii c in
  if (Nat.leb 65 n && Nat.leb n 90)%bool then ascii_of_nat (n + 32) else c.

Fixpoint toLowerCase (s : string) : string :=
  match s with
  | EmptyString => EmptyString
  | String c rest => String (lower_ascii c) (toLowerCase rest)
  end.

(** *** Numbers *)

(** The double nearest to the integer [z], ties going to the even
    significand: the rounding of every arithmetic operation.  Integers
    below 2^53 in magnitude are doubles themselves.  (From 2^1024 on the
    result is Infinity, which is not modelled.) *)
Definition to_double (z : Z) : Z :=
  let a := Z.abs z in
  if (a <? 2 ^ 53)%Z then z
  else
    let e := (Z.log2 a - 52)%Z in
    let q := Z.shiftr a e in
    let r := (a - Z.shiftl q e)%Z in
    let half := Z.shiftl 1 (e - 1) in
    let q' := if ((half <? r) || ((r =? half) && Z.odd q))%Z%bool
              then (q + 1)%Z else q in
    (Z.sgn z * Z.shiftl q' e)%Z.

(** [a - b] and [a * b] on numbers. *)
Definition js_sub (a b : Z) : Z := to_double (a - b).
Definition js_mul (a b : Z) : Z := to_double (a * b).

(** *** Objects as ordered maps *)

Fixpoint obj_get (o : obj) (k : string) : value :=
  match o with
  | [] => VUndefined
  | (k', v) :: rest => if String.eqb k' k then v else obj_get rest k
  end.

Fixpoint obj_has (o : obj) (k : string) : bool :=
  match o with
  | [] => false
  | (k', _) :: rest => String.eqb k' k || obj_has rest k
  end.

(** [o[k] = v]: an existing key keeps its position, a new key goes last.
    This is the order in which JavaScript enumerates keys that are not
    integer-like; integer-like keys ("0", "1", "42") are enumerated first,
    in ascending order, which is not modelled. *)
Fixpoint obj_set (o : obj) (k : string) (v : value) : obj :=
  match o with
  | [] => [(k, v)]
  | (k', v') :: rest =>
      if String.eqb k' k then (k', v) :: rest else (k', v') :: obj_set rest k v
  end.

(** The rest of an object once key [k] has been destructured out of it. *)
Definition obj_without (k : string) (o : obj) : obj :=
  List.filter (fun kv => negb (String.eqb (fst kv) k)) o.

Definition keys (o : obj) : list string := List.map fst o.

(** The array [xs] seen as an object: keys are the decimal indices. *)
Fixpoint indexed (i : nat) (xs : list value) : obj :=
  match xs with
  | [] => []
  | x :: rest => (pretty i, x) :: indexed (S i) rest
  end.

Fixpoint chars (s : string) : list value :=
  match s with
  | EmptyString => []
  | String c rest => VStr (String c EmptyString) :: chars rest
  end.

(** Own enumerable properties of [ToObject(v)], for a [v] that is not
    nullish: what [Object.entries], [Object.assign] and object rest
    destructuring enumerate. *)
Definition own_entries (v : value) : obj :=
  match v with
  | VObj fs => fs
  | VArr xs => indexed 0 xs
  | VStr s => indexed 0 (chars s)
  | VUndefined | VNull | VBool _ | VNum _ => []
  end.

(** [Object.assign(target, source)] on the entries of the target. *)
Definition Object_assign (target : obj) (source : value) : obj :=
  fold_left (fun acc kv => obj_set acc (fst kv) (snd kv)) (own_entries source) target.

(** ['k' in v] for an object [v]. *)
Definition has_property (v : value) (k : string) : bool :=
  match v with
  | VObj fs => obj_has fs k
  | _ => false
  end.

End JS.
Export JS.

(** ** Thrown values and results *)

(** The classes of the error objects the program and the runtime create. *)
Inductive error_class : Type :=
| CError
| CTypeError
| CSyntaxError
| CInvalidResponseError
| CDataProviderError.

(** What a [throw] or a rejected promise carries: an instance of an error
    class with its own properties, or any other value (the transport may
    reject with whatever it likes). *)
Inductive exn : Type :=
| Instance (c : error_class) (own : obj)
| Rejected (v : value).

(** [e instanceof C], for the classes above ([Error] is their base). *)
Definition instanceof (e : exn) (c : error_class) : bool :=
  match e, c with
  | Instance _ _, CError => true
  | Instance CTypeError _, CTypeError => true
  | Instance CSyntaxError _, CSyntaxError => true
  | Instance CInvalidResponseError _, CInvalidResponseError => true
  | Instance CDataProviderError _, CDataProviderError => true
  | _, _ => false
  end.

(** A [TypeError] raised by the runtime (reading a property of [undefined],
    calling what is not a function); its message is engine specific. *)
Definition TypeError : exn := Instance CTypeError [].

(** [new Error(message)] *)
Definition Error (message : string) : exn :=
  Instance CError [("message", VStr message)].

(** [class InvalidResponseError extends Error], the class the dispatcher
    throws. *)
Definition InvalidResponseError (statusCode : Z) (errors : value) : exn :=
  Instance CInvalidResponseError
    [("message", VStr ("Invalid response: " +:+ to_string (VNum statusCode)));
     ("errors", errors)].

(** [class DataProviderError extends Error] of src/error.ts. *)
Definition DataProviderError (statusCode : Z) (errors : value) : exn :=
  Instance CDataProviderError
    [("message", VStr ("Invalid response: " +:+ to_string (VNum statusCode)));
     ("errors", errors);
     ("_dataprovidererror", VBool true)].

(** [isDataProviderError] of src/error.ts:
    [!!error && typeof error === 'object' && '_dataprovidererror' in error]. *)
Definition isDataProviderError (error : exn) : bool :=
  match error with
  | Instance _ own => obj_has own "_dataprovidererror"
  | Rejected v =>
      truthy v && typeof_object v && has_property v "_dataprovidererror"
  end.

(** Own property [k] of a thrown value. *)
Definition exn_get (e : exn) (k : string) : value :=
  match e with
  | Instance _ own => obj_get own k
  | Rejected (VObj own) => obj_get own k
  | Rejected _ => VUndefined
  end.

Inductive result (A : Type) : Type :=
| Ok (a : A)
| Throw (e : exn).
Arguments Ok {A} a.
Arguments Throw {A} e.

Definition bindR {A B} (c : result A) (k : A -> result B) : result B :=
  match c with
  | Ok a => k a
  | Throw e => Throw e
  end.

Notation "'let?' x ':=' c 'in' k" := (bindR c (fun x => k))
  (at level 10, x name, c at level 100, k at level 200).

(** [v.k]: reading a property throws on [undefined] and [null]. *)
Definition get_prop (v : value) (k : string) : value :=
  match v with
  | VObj fs => obj_get fs k
  | _ => VUndefined
  end.

Definition prop (v : value) (k : string) : result value :=
  if nullish v then Throw TypeError else Ok (get_prop v k).

(** [v?.k] *)
Definition opt_prop (v : value) (k : string) : value :=
  if nullish v then VUndefined else get_prop v k.

(** [Object.keys(v)] *)
Definition Object_keys (v : value) : result value :=
  if nullish v then Throw TypeError
  else Ok (VArr (List.map (fun kv => VStr (fst kv)) (own_entries v))).

(** [v.toLowerCase()]: only strings have the method. *)
Definition call_toLowerCase (v : value) : result value :=
  match v with
  | VStr s => Ok (VStr (toLowerCase s))
  | _ => Throw TypeError
  end.

(** ** The query encoder *)

Module Qs.

Definition hex_digit (n : nat) : ascii :=
  ascii_of_nat (if Nat.ltb n 10 then 48 + n else 55 + n).

(** The characters the encoder leaves as they are: letters, digits and
    [-], [.], [_], [~]. *)
Definition unreserved (c : ascii) : bool :=
  let n := nat_of_ascii c in
  ((Nat.leb 48 n && Nat.leb n 57) || (Nat.leb 65 n && Nat.leb n 90) ||
   (Nat.leb 97 n && Nat.leb n 122) ||
   Nat.eqb n 45 || Nat.eqb n 46 || Nat.eqb n 95 || Nat.eqb n 126)%bool.

Fixpoint encode (s : string) : string :=
  match s with
  | EmptyString => EmptyString
  | String c rest =>
      if unreserved c then String c (encode rest)
      else
        let n := nat_of_ascii c in
        String "%" (String (hex_digit (n / 16)) (String (hex_digit (n mod 16))
          (encode rest)))
  end.

(** Modelled from the spec: the query-string primitive [qs.stringify], a
    dependency of the repository, with the options the program passes
    ([arrayFormat: 'brackets'], [encodeValuesOnly: true]).  A nested key is
    rendered [parent[child]], an array as repeated [parent[]=value] entries
    in array order, only values are percent-encoded, and keys are visited in
    insertion order.  [undefined] values and empty containers yield no
    entry; [null] yields an entry with an empty value. *)
Fixpoint pairs (prefix : string) (v : value) : list string :=
  match v with
  | VUndefined => []
  | VNull => [prefix +:+ "="]
  | VBool _ | VNum _ | VStr _ => [prefix +:+ "=" +:+ encode (to_string v)]
  | VArr xs => flat_map (pairs (prefix +:+ "[]")) xs
  | VObj fs =>
      flat_map (fun kv => pairs (prefix +:+ "[" +:+ fst kv +:+ "]") (snd kv)) fs
  end.

Fixpoint join (sep : string) (l : list string) : string :=
  match l with
  | [] => ""
  | [x] => x
  | x :: rest => x +:+ sep +:+ join sep rest
  end.

Definition stringify (v : value) : string :=
  if typeof_object v
  then join "&" (flat_map (fun kv => pairs (fst kv) (snd kv)) (own_entries v))
  else "".

End Qs.

(** [stringifyQuery] *)
Definition stringifyQuery (queryParameters : value) : string :=
  Qs.stringify queryParameters.

(** ** The query builder *)

Record PaginationPayload : Type := {
  page : Z;
  perPage : Z;
}.

(** [isIdObject]: [typeof item === 'object' && 'id' in item].  The [in]
    operator throws on [null]. *)
Definition isIdObject (item : value) : result bool :=
  if typeof_object item then
    match item with
    | VNull => Throw TypeError
    | _ => Ok (has_property item "id")
    end
  else Ok false.

(** [getQuery({ meta })] *)
Definition getQuery (meta : value) : obj :=
  let query : obj := [] in
  if truthy (opt_prop meta "include")
  then obj_set query "include" (get_prop meta "include")
  else query.

(** The [equals:] operator prefix: [`equals:${value}`]. *)
Definition equals (v : value) : value := VStr ("equals:" +:+ to_string v).

(** [getListQuery({ pagination, sort, filter, meta })] *)
Definition getListQuery (pagination : PaginationPayload)
    (sort filter meta : value) : result obj :=
  let page := page pagination in
  let perPage := perPage pagination in
  let query : obj :=
    Object_assign
      [("limit", VNum perPage); ("offset", VNum (js_mul (js_sub page 1) perPage))]
      (VObj (getQuery meta)) in
  let? ks := Object_keys sort in
  let? query :=
    if truthy ks then
      let field := get_prop sort "field" in
      let? order := call_toLowerCase (get_prop sort "order") in
      Ok (obj_set query "sort" (VObj [(to_string field, order)]))
    else Ok query in
  let? q := prop filter "q" in
  let filters := obj_without "q" (own_entries filter) in
  let filters :=
    if truthy (opt_prop meta "filter")
    then Object_assign filters (get_prop meta "filter")
    else filters in
  let query := if truthy q then obj_set query "q" q else query in
  let query :=
    obj_set query "filter"
      (VObj (fold_left (fun acc kv => obj_set acc (fst kv) (equals (snd kv)))
               filters [])) in
  Ok query.

(** [(params.ids ?? []).map((item) => isIdObject(item) ? item.id : item)] *)
Fixpoint map_ids (items : list value) : result (list value) :=
  match items with
  | [] => Ok []
  | item :: rest =>
      let? b := isIdObject item in
      let? ids := map_ids rest in
      Ok ((if b : bool then get_prop item "id" else item) :: ids)
  end.

Definition getMany_ids (ids : value) : result value :=
  match (if nullish ids then VArr [] else ids) with
  | VArr items => let? id := map_ids items in Ok (VArr id)
  | _ => Throw TypeError
  end.

(** ** The response interpreter *)

(** What the program uses of a response: its status and the outcome of the
    asynchronous [json()] call (a decoded body or a rejection). *)
Record FetchResponse : Type := {
  status : Z;
  json : result value;
}.

(** [getJsonResponse] *)
Definition getJsonResponse (res : FetchResponse) : result value :=
  let? data := json res in
  if (status res >=? 400)%Z then
    let? errors := prop data "errors" in
    Throw (InvalidResponseError (status res) errors)
  else Ok data.

(** ** The operation dispatcher *)

(** The URL object an operation builds: [new URL(input, base)], then
    possibly [url.search = ...].  The transport receives its [href].  The
    base is taken to be an absolute URL; on any other base the constructor,
    which is the first statement of every operation, throws a TypeError
    and nothing else happens.  That case is not modelled: a request in the
    trace is the sign that the URL was built. *)
Record URL : Type := {
  input : string;
  base : string;
  search : string;
}.

(** [JSON.stringify(v)], kept symbolic. *)
Inductive BodyInit : Type :=
| JSON_stringify (v : value).

Record RequestInit : Type := {
  method : string;
  body : option BodyInit;
  headers : list (string * string);
}.

(** One call of the transport: [fetch(url.href)] or
    [fetch(url.href, options)]. *)
Record request : Type := {
  href : URL;
  options : option RequestInit;
}.

(** References to the objects a caller shares with the program. *)
Abbreviation loc := positive.

(** The parameter object of an operation.  A field that the type of an
    operation does not have is [undefined] there and is never read.  The
    filter is passed by reference: it is the one object of [params] the
    program writes to. *)
Module Params.
Record t : Type := {
  id : value;
  ids : value;
  data : value;
  target : value;
  pagination : PaginationPayload;
  sort : value;
  filter : loc;
  meta : value;
}.
End Params.

(** What an operation can change or emit: the filter objects of the
    caller, its parameter objects, and the requests handed to the transport
    so far. *)
Record world : Type := {
  heap : gmap loc obj;
  args : gmap loc Params.t;
  sent : list request;
}.

Definition M (A : Type) : Type := world -> world * result A.

Definition ret {A} (a : A) : M A := fun w => (w, Ok a).

Definition bindM {A B} (c : M A) (k : A -> M B) : M B :=
  fun w =>
    match c w with
    | (w', Ok a) => k a w'
    | (w', Throw e) => (w', Throw e)
    end.

Notation "'let!' x ':=' c 'in' k" := (bindM c (fun x => k))
  (at level 10, x name, c at level 100, k at level 200).

Definition lift {A} (r : result A) : M A := fun w => (w, r).

(** Reading [params.filter]: the object the reference points to, or
    [undefined] when the caller passed none. *)
Definition read (l : loc) : M value :=
  fun w =>
    (w, Ok match heap w !! l with Some o => VObj o | None => VUndefined end).

(** [object[k] = v] on the object at [l]; throws when there is none.  The
    key [__proto__] is special: unless the object has it as an own
    property, the assignment goes to the accessor of [Object.prototype] and
    leaves the own properties as they are. *)
Definition assign (l : loc) (k : string) (v : value) : M unit :=
  fun w =>
    match heap w !! l with
    | Some o =>
        if (String.eqb k "__proto__" && negb (obj_has o k))%bool then (w, Ok tt)
        else ({| heap := <[l := obj_set o k v]> (heap w);
                 args := args w; sent := sent w |}, Ok tt)
    | None => (w, Throw TypeError)
    end.


Section Operations.

Variable baseUrl : string.

(** The injected transport: a request is answered by a response, or the
    promise is rejected. *)
Variable fetch : request -> result FetchResponse.

Definition await_fetch (url : URL) (init : option RequestInit) : M FetchResponse :=
  fun w =>
    let req := {| href := url; options := init |} in
    ({| heap := heap w; args := args w; sent := sent w ++ [req] |}, fetch req).

Definition new_URL (path : string) : URL :=
  {| input := path; base := baseUrl; search := "" |}.

Definition set_search (url : URL) (s : string) : URL :=
  {| input := input url; base := base url; search := s |}.

Definition getList (resource : string) (params : Params.t) : M value :=
  let url := new_URL ("/" +:+ resource) in
  let! filter := read (Params.filter params) in
  let! listQuery :=
    lift (getListQuery (Params.pagination params) (Params.sort params) filter
            (Params.meta params)) in
  let url := set_search url (stringifyQuery (VObj listQuery)) in
  let! res := await_fetch url None in
  let! data := lift (getJsonResponse res) in
  let! items := lift (prop data "items") in
  let! total := lift (prop data "total") in
  ret (VObj [("data", items); ("total", total)]).

Definition getOne (resource : string) (params : Params.t) : M value :=
  let url := new_URL ("/" +:+ resource +:+ "/" +:+ to_string (Params.id params)) in
  let url := set_search url (stringifyQuery (VObj (getQuery (Params.meta params)))) in
  let! res := await_fetch url None in
  let! data := lift (getJsonResponse res) in
  ret (VObj [("data", data)]).

Definition getMany (resource : string) (params : Params.t) : M value :=
  let url := new_URL ("/" +:+ resource) in
  let! id := lift (getMany_ids (Params.ids params)) in
  let url := set_search url (stringifyQuery (VObj [("id", id)])) in
  let! res := await_fetch url None in
  let! data := lift (getJsonResponse res) in
  let! items := lift (prop data "items") in
  ret (VObj [("data", items)]).

Definition getManyReference (resource : string) (params : Params.t) : M value :=
  let url := new_URL ("/" +:+ resource) in
  let! filter := read (Params.filter params) in
  let! listQuery :=
    lift (getListQuery (Params.pagination params) (Params.sort params) filter
            (Params.meta params)) in
  let! _ :=
    if truthy (Params.target params)
    then assign (Params.filter params) (to_string (Params.target params))
           (equals (Params.id params))
    else ret tt in
  let url := set_search url (stringifyQuery (VObj listQuery)) in
  let! res := await_fetch url None in
  let! data := lift (getJsonResponse res) in
  let! items := lift (prop data "items") in
  let! total := lift (prop data "total") in
  ret (VObj [("data", items); ("total", total)]).

Definition json_request (m : string) (params : Params.t) : option RequestInit :=
  Some {| method := m;
          body := Some (JSON_stringify (Params.data params));
          headers := [("Content-Type", "application/json")] |}.

Definition create (resource : string) (params : Params.t) : M value :=
  let url := new_URL ("/" +:+ resource) in
  let! res := await_fetch url (json_request "POST" params) in
  let! data := lift (getJsonResponse res) in
  ret (VObj [("data", data)]).

Definition update (resource : string) (params : Params.t) : M value :=
  let url := new_URL ("/" +:+ resource +:+ "/" +:+ to_string (Params.id params)) in
  let! res := await_fetch url (json_request "PUT" params) in
  let! data := lift (getJsonResponse res) in
  ret (VObj [("data", data)]).

Definition updateMany (resource : string) (params : Params.t) : M value :=
  let url := new_URL ("/" +:+ resource) in
  let url := set_search url (stringifyQuery (VObj [("id", Params.ids params)])) in
  let! res := await_fetch url (json_request "PUT" params) in
  let! data := lift (getJsonResponse res) in
  let! items := lift (prop data "items") in
  ret (VObj [("data", items)]).

Definition delete_request : option RequestInit :=
  Some {| method := "DELETE"; body := None; headers := [] |}.

Definition delete (resource : string) (params : Params.t) : M value :=
  let url := new_URL ("/" +:+ resource +:+ "/" +:+ to_string (Params.id params)) in
  let! res := await_fetch url delete_request in
  if (status res >=? 400)%Z
  then lift (Throw (Error (to_string (VNum (status res)))))
  else ret (VObj [("data", VObj [])]).

Definition deleteMany (resource : string) (params : Params.t) : M value :=
  let url := new_URL ("/" +:+ resource) in
  let url := set_search url (stringifyQuery (VObj [("id", Params.ids params)])) in
  let! res := await_fetch url delete_request in
  if (status res >=? 400)%Z
  then lift (Throw (InvalidResponseError (status res) VUndefined))
  else ret (VObj [("data", Params.ids params)]).

End Operations.

(** ** Vocabulary of the statements *)

(** Every character of a string satisfies [p]. *)
Fixpoint string_forall (p : ascii -> bool) (s : string) : bool :=
  match s with
  | EmptyString => true
  | String c rest => p c && string_forall p rest
  end.

(** The integers on which the arithmetic of doubles is exact and which
    JavaScript prints in full decimal. *)
Definition safe_integer (z : Z) : Prop := Z.abs z < 2 ^ 53.

(** A value all of whose numbers are safe integers: the values that
    [to_string] and the encoder print as JavaScript does. *)
Fixpoint printable (v : value) : bool :=
  match v with
  | VNum n => (Z.abs n <? 2 ^ 53)%Z
  | VArr xs => forallb printable xs
  | VObj fs => forallb (fun kv => printable (snd kv)) fs
  | _ => true
  end.

(** Text of ASCII characters only. *)
Definition ascii_only (s : string) : bool :=
  string_forall (fun c => Nat.ltb (nat_of_ascii c) 128) s.

(** The keys JavaScript enumerates ahead of the others: the decimal
    numerals without a leading zero. *)
Definition integer_like (k : string) : bool :=
  match k with
  | EmptyString => false
  | String "0" EmptyString => true
  | String c rest =>
      (Nat.leb 49 (nat_of_ascii c) && Nat.leb (nat_of_ascii c) 57 &&
       string_forall (fun d => Nat.leb 48 (nat_of_ascii d) && Nat.leb (nat_of_ascii d) 57) rest)%bool
  end.


(** The [SortPayload] type of the parameters: an object whose [field] and
    [order] are strings. *)
Definition is_SortPayload (sort : value) : bool :=
  match sort with
  | VObj fs =>
      match obj_get fs "field", obj_get fs "order" with
      | VStr _, VStr _ => true
      | _, _ => false
      end
  | _ => false
  end.

(** The [filter] field of a built list query, as an object. *)
Definition filter_field (query : obj) : obj :=
  own_entries (obj_get query "filter").

(** What [getListQuery] merges into the filter: [meta.filter] when it is
    truthy. *)
Definition meta_filter (meta : value) : obj :=
  if truthy (opt_prop meta "filter")
  then own_entries (get_prop meta "filter")
  else [].

(** The nine methods of the object [createDataProvider] returns. *)
Inductive operation : Type :=
| OpGetList
| OpGetOne
| OpGetMany
| OpGetManyReference
| OpCreate
| OpUpdate
| OpUpdateMany
| OpDelete
| OpDeleteMany.

(** [createDataProvider(baseUrl, { fetch })[op]] *)
Definition createDataProvider (baseUrl : string)
    (fetch : request -> result FetchResponse) (op : operation) :
    string -> Params.t -> M value :=
  match op with
  | OpGetList => getList baseUrl fetch
  | OpGetOne => getOne baseUrl fetch
  | OpGetMany => getMany baseUrl fetch
  | OpGetManyReference => getManyReference baseUrl fetch
  | OpCreate => create baseUrl fetch
  | OpUpdate => update baseUrl fetch
  | OpUpdateMany => updateMany baseUrl fetch
  | OpDelete => delete baseUrl fetch
  | OpDeleteMany => deleteMany baseUrl fetch
  end.

Definition is_delete (op : operation) : bool :=
  match op with
  | OpDelete | OpDeleteMany => true
  | _ => false
  end.

(** The parameters of a bulk call: [{ ids, data }]. *)
Definition bulk_params (ids data : value) : Params.t :=
  {| Params.id := VUndefined; Params.ids := ids;
     Params.data := data; Params.target := VUndefined;
     Params.pagination := {| page := 1; perPage := 25 |};
     Params.sort := VUndefined; Params.filter := 1%positive;
     Params.meta := VUndefined |}.

Definition empty_world : world := {| heap := ∅; args := ∅; sent := [] |}.

(** A transport that answers every request with the same response. *)
Definition always (res : FetchResponse) : request -> result FetchResponse :=
  fun _ => Ok res.

(** A response whose body is not JSON: [json()] rejects with the
    SyntaxError of the parser. *)
Definition not_json : exn :=
  Instance CSyntaxError [("message", VStr "Unexpected token < in JSON at position 0")].

Definition undecodable (statusCode : Z) : FetchResponse :=
  {| status := statusCode; json := Throw not_json |}.

(** The 400 response of a rejected creation: a body with one validation
    failure. *)
Definition validation_errors : value :=
  VArr [VObj [("constraint", VStr "isNotEmpty");
              ("message", VStr "foo should not be empty");
              ("property", VStr "foo")]].

Definition rejected_creation : FetchResponse :=
  {| status := 400; json := Ok (VObj [("errors", validation_errors)]) |}.

(** The 200 response of the repository's tests. *)
Definition one_item : FetchResponse :=
  {| status := 200;
     json := Ok (VObj [("items", VArr [VObj [("title", VStr "Item one")]]);
                       ("total", VNum 1)]) |}.

(** The call of the repository's getManyReference test:
    [{ target: 'sometarget', id: 1, pagination: { page: 1, perPage: 25 },
       sort: { field: 'somefield', order: 'asc' }, filter: { id: 1 } }],
    the filter object living at reference 1. *)
Definition reference_params : Params.t :=
  {| Params.id := VNum 1; Params.ids := VUndefined;
     Params.data := VUndefined; Params.target := VStr "sometarget";
     Params.pagination := {| page := 1; perPage := 25 |};
     Params.sort := VObj [("field", VStr "somefield"); ("order", VStr "asc")];
     Params.filter := 1%positive;
     Params.meta := VUndefined |}.

Definition reference_world : world :=
  {| heap := {[ 1%positive := [("id", VNum 1)] ]};
     args := {[ 2%positive := reference_params ]}; sent := [] |}.

(** A bare identifier, an object exposing an identifier field, and the raw
    identifier of either. *)
Definition is_identifier (item : value) : bool :=
  match item with
  | VNum _ | VStr _ => true
  | _ => false
  end.

Definition is_id_object (item : value) : bool :=
  match item with
  | VObj fs => obj_has fs "id"
  | _ => false
  end.

Definition raw_id (item : value) : value :=
  match item with
  | VObj fs => obj_get fs "id"
  | _ => item
  end.

(** ** Vocabulary of the further properties *)

(** What getMany makes of one element of [ids]: the [id] of an object that
    has one, the element itself otherwise. *)
Definition reduce_item (item : value) : value :=
  if has_property item "id" then get_prop item "id" else item.

Definition is_null (v : value) : bool :=
  match v with
  | VNull => true
  | _ => false
  end.

(** The operations by the envelope they return. *)
Definition returns_body (op : operation) : bool :=
  match op with
  | OpGetOne | OpCreate | OpUpdate => true
  | _ => false
  end.

Definition returns_page (op : operation) : bool :=
  match op with
  | OpGetList | OpGetManyReference => true
  | _ => false
  end.

Definition returns_items (op : operation) : bool :=
  match op with
  | OpGetMany | OpUpdateMany => true
  | _ => false
  end.

(** The operations that build something that can throw before the
    transport is called. *)
Definition builds_query (op : operation) : bool :=
  match op with
  | OpGetList | OpGetMany | OpGetManyReference => true
  | _ => false
  end.

(** Parameters of a list call: [{ pagination, sort, filter, meta }], the
    filter object living at reference 1. *)
Definition list_params (pagination : PaginationPayload) (sort meta : value) :
    Params.t :=
  {| Params.id := VUndefined; Params.ids := VUndefined;
     Params.data := VUndefined; Params.target := VUndefined;
     Params.pagination := pagination; Params.sort := sort;
     Params.filter := 1%positive; Params.meta := meta |}.

(** Parameters of a call on one entity: [{ id, data, meta }]. *)
Definition item_params (id data meta : value) : Params.t :=
  {| Params.id := id; Params.ids := VUndefined;
     Params.data := data; Params.target := VUndefined;
     Params.pagination := {| page := 1; perPage := 25 |};
     Params.sort := VUndefined; Params.filter := 1%positive;
     Params.meta := meta |}.

(** A transport whose promise is always rejected. *)
Definition unreachable (e : exn) : request -> result FetchResponse :=
  fun _ => Throw e.

Definition network_down : exn :=
  Instance CTypeError [("message", VStr "Failed to fetch")].

(** The 200 response of the repository's tests for one entity. *)
Definition item_one : FetchResponse :=
  {| status := 200; json := Ok (VObj [("title", VStr "Item one")]) |}.

(** What an operation makes of the response of the transport, once it has
    one: the two deletes look at the status only, the others interpret the
    body and shape their envelope from it. *)
Definition finish (op : operation) (params : Params.t) (res : FetchResponse) :
    result value :=
  match op with
  | OpDelete =>
      if (status res >=? 400)%Z
      then Throw (Error (to_string (VNum (status res))))
      else Ok (VObj [("data", VObj [])])
  | OpDeleteMany =>
      if (status res >=? 400)%Z
      then Throw (InvalidResponseError (status res) VUndefined)
      else Ok (VObj [("data", Params.ids params)])
  | OpGetOne | OpCreate | OpUpdate =>
      let? data := getJsonResponse res in
      Ok (VObj [("data", data)])
  | OpGetList | OpGetManyReference =>
      let? data := getJsonResponse res in
      let? items := prop data "items" in
      let? total := prop data "total" in
      Ok (VObj [("data", items); ("total", total)])
  | OpGetMany | OpUpdateMany =>
      let? data := getJsonResponse res in
      let? items := prop data "items" in
      Ok (VObj [("data", items)])
  end.

(** An ASCII capital letter. *)
Definition is_upper (c : ascii) : bool :=
  let n := nat_of_ascii c in (Nat.leb 65 n && Nat.leb n 90)%bool.

(** * Properties *)

(** ** Objects *)

Section ObjectFacts.

Implicit Types (o t : obj) (k : string) (v : value).

Lemma obj_has_In o k : obj_has o k = true <-> In k (keys o).
Proof.
  induction o as [|[k' v'] o IH]; simpl.
  - split; [discriminate | tauto].
  - rewrite orb_true_iff, IH, String.eqb_eq. tauto.
Qed.

Lemma obj_has_false o k : obj_has o k = false <-> ~ In k (keys o).
Proof.
  rewrite <- obj_has_In. destruct (obj_has o k); split; congruence.
Qed.

Lemma obj_get_absent o k : ~ In k (keys o) -> obj_get o k = VUndefined.
Proof.
  induction o as [|[k' v'] o IH]; simpl; [reflexivity|].
  intros H. destruct (String.eqb_spec k' k); [tauto|]. apply IH. tauto.
Qed.

Lemma obj_get_In o k v : List.NoDup (keys o) -> In (k, v) o -> obj_get o k = v.
Proof.
  induction o as [|[k' v'] o IH]; simpl; [tauto|].
  intros Hnd [Heq|Hin].
  - inversion Heq; subst. now rewrite String.eqb_refl.
  - apply List.NoDup_cons_iff in Hnd as [Hk' Hnd].
    destruct (String.eqb_spec k' k) as [->|_]; [|now apply IH].
    exfalso. apply Hk'. unfold keys. apply in_map_iff. now exists (k, v).
Qed.

Lemma obj_set_absent o k v : ~ In k (keys o) -> obj_set o k v = o ++ [(k, v)].
Proof.
  induction o as [|[k' v'] o IH]; simpl; [reflexivity|].
  intros H. destruct (String.eqb_spec k' k); [tauto|].
  rewrite IH; tauto.
Qed.

Lemma keys_obj_set o k v :
  keys (obj_set o k v) = if obj_has o k then keys o else keys o ++ [k].
Proof.
  induction o as [|[k' v'] o IH]; simpl; [reflexivity|].
  destruct (String.eqb_spec k' k); simpl; [reflexivity|].
  rewrite IH. now destruct (obj_has o k).
Qed.

Lemma obj_get_set o k v k' :
  obj_get (obj_set o k v) k' = if String.eqb k k' then v else obj_get o k'.
Proof.
  induction o as [|[k0 v0] o IH]; simpl; [reflexivity|].
  destruct (String.eqb_spec k0 k) as [->|Hne]; simpl.
  - now destruct (String.eqb_spec k k').
  - rewrite IH. destruct (String.eqb_spec k0 k') as [->|_]; [|reflexivity].
    destruct (String.eqb_spec k k'); congruence.
Qed.

Lemma obj_get_set_eq o k v : obj_get (obj_set o k v) k = v.
Proof. now rewrite obj_get_set, String.eqb_refl. Qed.

Lemma obj_get_set_ne o k v k' : k <> k' -> obj_get (obj_set o k v) k' = obj_get o k'.
Proof. intros H. rewrite obj_get_set. now destruct (String.eqb_spec k k'). Qed.

Lemma obj_has_set o k v k' :
  obj_has (obj_set o k v) k' = (String.eqb k k' || obj_has o k')%bool.
Proof.
  induction o as [|[k0 v0] o IH]; simpl; [now rewrite orb_false_r|].
  destruct (String.eqb_spec k0 k) as [->|Hne]; simpl.
  - now destruct (String.eqb k k').
  - rewrite IH. destruct (String.eqb k0 k'), (String.eqb k k'); reflexivity.
Qed.

Lemma NoDup_keys_obj_set o k v : List.NoDup (keys o) -> List.NoDup (keys (obj_set o k v)).
Proof.
  intros Hnd. rewrite keys_obj_set.
  destruct (obj_has o k) eqn:E; [assumption|].
  apply obj_has_false in E.
  apply List.NoDup_app; [assumption | repeat constructor; intros [] |].
  intros x Hx [<-|[]]. tauto.
Qed.

(** Setting a key keeps every entry in its place: the keys of the target
    stay a prefix of the keys of the result. *)
Lemma keys_obj_set_prefix o k v :
  exists extra, keys (obj_set o k v) = keys o ++ extra /\
                forall x, In x extra -> x = k.
Proof.
  rewrite keys_obj_set. destruct (obj_has o k).
  - exists []. rewrite app_nil_r. split; [reflexivity | intros x []].
  - exists [k]. split; [reflexivity | intros x [<-|[]]; reflexivity].
Qed.

Lemma keys_obj_without k o :
  keys (obj_without k o) = List.filter (fun x => negb (String.eqb x k)) (keys o).
Proof.
  unfold keys, obj_without. induction o as [|[k' v'] o IH]; simpl; [reflexivity|].
  destruct (String.eqb k' k); simpl; now rewrite IH.
Qed.

Lemma In_obj_without k o k' v :
  In (k', v) (obj_without k o) <-> In (k', v) o /\ k' <> k.
Proof.
  unfold obj_without. rewrite filter_In. simpl.
  rewrite negb_true_iff, String.eqb_neq. tauto.
Qed.

Lemma not_In_keys_obj_without k o : ~ In k (keys (obj_without k o)).
Proof.
  rewrite keys_obj_without, filter_In, negb_true_iff, String.eqb_neq. tauto.
Qed.

Lemma NoDup_keys_obj_without k o : List.NoDup (keys o) -> List.NoDup (keys (obj_without k o)).
Proof.
  intros H. rewrite keys_obj_without. now apply List.NoDup_filter.
Qed.

End ObjectFacts.

(** ** Folding assignments over a list of entries

    Both [Object.assign(filters, meta.filter)] and the [reduce] that wraps
    the filter values set the entries of a list one after the other. *)

Section SetAll.

Variable f : value -> value.

Local Abbreviation set_all t l :=
  (fold_left (fun acc kv => obj_set acc (fst kv) (f (snd kv))) l t).

Lemma set_all_keys t l :
  exists extra, keys (set_all t l) = keys t ++ extra /\
                forall x, In x extra -> In x (keys l).
Proof.
  revert t. induction l as [|[k v] l IH]; intros t; simpl.
  - exists []. rewrite app_nil_r. split; [reflexivity | intros x []].
  - destruct (IH (obj_set t k (f v))) as (e1 & -> & H1).
    destruct (keys_obj_set_prefix t k (f v)) as (e0 & -> & H0).
    exists (e0 ++ e1). rewrite app_assoc. split; [reflexivity|].
    intros x Hx. apply in_app_or in Hx as [Hx|Hx]; [left | right]; auto.
    symmetry. auto.
Qed.

Lemma set_all_NoDup t l : List.NoDup (keys t) -> List.NoDup (keys (set_all t l)).
Proof.
  revert t. induction l as [|[k v] l IH]; intros t Hnd; simpl.
  - assumption.
  - apply IH. now apply NoDup_keys_obj_set.
Qed.

Lemma set_all_get_other t l k :
  ~ In k (keys l) -> obj_get (set_all t l) k = obj_get t k.
Proof.
  revert t. induction l as [|[k' v] l IH]; intros t Hk; simpl in *.
  - reflexivity.
  - rewrite IH by tauto. apply obj_get_set_ne. tauto.
Qed.


(** On entries with distinct keys none of which the target has, the fold
    appends the entries in order. *)
Lemma set_all_fresh t l :
  List.NoDup (keys l) -> (forall k, In k (keys l) -> ~ In k (keys t)) ->
  set_all t l = t ++ List.map (fun kv => (fst kv, f (snd kv))) l.
Proof.
  revert t. induction l as [|[k v] l IH]; intros t Hnd Hfresh; simpl in *.
  - now rewrite app_nil_r.
  - apply List.NoDup_cons_iff in Hnd as [Hk Hnd].
    rewrite obj_set_absent by (apply Hfresh; now left).
    rewrite IH; [now rewrite <- app_assoc | assumption |].
    intros k' Hk' Hin. unfold keys in Hin. rewrite map_app in Hin.
    apply in_app_or in Hin as [Hin|[<-|[]]]; [|tauto].
    apply (Hfresh k'); [now right | exact Hin].
Qed.

End SetAll.

Lemma keys_map_values (f : value -> value) (o : obj) :
  keys (List.map (fun kv => (fst kv, f (snd kv))) o) = keys o.
Proof. unfold keys. rewrite List.map_map. reflexivity. Qed.

Lemma In_map_values (f : value -> value) (o : obj) k v :
  In (k, v) o -> In (k, f v) (List.map (fun kv => (fst kv, f (snd kv))) o).
Proof. intros H. apply in_map_iff. now exists (k, v). Qed.

Lemma In_obj_get (o : obj) k :
  In k (keys o) -> In (k, obj_get o k) o.
Proof.
  induction o as [|[k' v'] o IH]; simpl; [tauto|].
  destruct (String.eqb_spec k' k) as [->|Hne]; [now left|].
  intros [?|H]; [congruence | right; auto].
Qed.

(** The [reduce] of [getListQuery] on an object: every value wrapped, keys
    and order kept. *)
Lemma wrap_filters (filters : obj) :
  List.NoDup (keys filters) ->
  fold_left (fun acc kv => obj_set acc (fst kv) (equals (snd kv))) filters [] =
  List.map (fun kv => (fst kv, equals (snd kv))) filters.
Proof.
  intros Hnd. apply (set_all_fresh equals [] filters Hnd). intros k _ [].
Qed.

(** [Object.assign]: the target's keys stay in front, in their order; the
    keys the source does not have keep their values. *)
Lemma Object_assign_keys (t : obj) (src : value) :
  exists extra, keys (Object_assign t src) = keys t ++ extra /\
                forall x, In x extra -> In x (keys (own_entries src)).
Proof. apply (set_all_keys (fun v => v)). Qed.

Lemma Object_assign_NoDup (t : obj) (src : value) :
  List.NoDup (keys t) -> List.NoDup (keys (Object_assign t src)).
Proof. apply (set_all_NoDup (fun v => v)). Qed.

Lemma Object_assign_get_other (t : obj) (src : value) k :
  ~ In k (keys (own_entries src)) ->
  obj_get (Object_assign t src) k = obj_get t k.
Proof. apply (set_all_get_other (fun v => v)). Qed.

(** ** The list query *)

Lemma is_SortPayload_inv sort :
  is_SortPayload sort = true ->
  exists fs field order,
    sort = VObj fs /\ obj_get fs "field" = VStr field /\
    obj_get fs "order" = VStr order.
Proof.
  destruct sort as [| | | | |xs|fs]; simpl; try discriminate.
  destruct (obj_get fs "field") eqn:Ef; try discriminate.
  destruct (obj_get fs "order") eqn:Eo; try discriminate.
  intros _. eauto 6.
Qed.

Lemma getQuery_keys meta k : In k (keys (getQuery meta)) -> k = "include".
Proof.
  unfold getQuery. destruct (truthy _); simpl; [|tauto].
  intros [<-|[]]. reflexivity.
Qed.

(** The query before [sort], [q] and [filter] are set. *)
Lemma base_query_get (limit offset : value) meta k :
  k <> "include" ->
  obj_get (Object_assign [("limit", limit); ("offset", offset)] (VObj (getQuery meta))) k =
  obj_get [("limit", limit); ("offset", offset)] k.
Proof.
  intros Hk. apply Object_assign_get_other. simpl.
  intros H. apply getQuery_keys in H. congruence.
Qed.

(** [Object.keys] returns an array, and an array is truthy: the guard of
    the sort assignment never fails. *)
Lemma Object_keys_truthy v ks : Object_keys v = Ok ks -> truthy ks = true.
Proof.
  unfold Object_keys. destruct (nullish v); [discriminate|].
  intros [= <-]. reflexivity.
Qed.

(** What a successful [getListQuery] has computed. *)
Lemma getListQuery_Ok pagination sort filter meta query :
  getListQuery pagination sort filter meta = Ok query ->
  exists order query',
    nullish sort = false /\ get_prop sort "order" = VStr order /\
    nullish filter = false /\
    query' =
      obj_set
        (Object_assign
           [("limit", VNum (perPage pagination));
            ("offset", VNum (js_mul (js_sub (page pagination) 1) (perPage pagination)))]
           (VObj (getQuery meta)))
        "sort" (VObj [(to_string (get_prop sort "field"), VStr (toLowerCase order))]) /\
    query =
      obj_set
        (if truthy (get_prop filter "q")
         then obj_set query' "q" (get_prop filter "q") else query')
        "filter"
        (VObj (fold_left (fun acc kv => obj_set acc (fst kv) (equals (snd kv)))
                 (if truthy (opt_prop meta "filter")
                  then Object_assign (obj_without "q" (own_entries filter))
                         (get_prop meta "filter")
                  else obj_without "q" (own_entries filter)) [])).
Proof.
  unfold getListQuery, Object_keys, prop.
  destruct (nullish sort) eqn:Es; simpl; [discriminate|].
  destruct (get_prop sort "order") eqn:Eo; simpl; try discriminate.
  destruct (nullish filter) eqn:Ef; simpl; [discriminate|].
  intros [= <-]. eexists _, _. repeat split; reflexivity.
Qed.

(** With a well-typed sort and a filter that is not nullish the builder
    returns a query. *)
Lemma getListQuery_returns pagination sort filter meta :
  is_SortPayload sort = true -> nullish filter = false ->
  exists query, getListQuery pagination sort filter meta = Ok query.
Proof.
  intros Hs Hf. apply is_SortPayload_inv in Hs as (fs & field & order & -> & Hfield & Horder).
  unfold getListQuery, Object_keys, prop. simpl. rewrite Horder, Hf. simpl.
  eexists. reflexivity.
Qed.

Lemma to_double_safe z : safe_integer z -> to_double z = z.
Proof.
  unfold safe_integer, to_double. intros H.
  destruct (Z.ltb_spec (Z.abs z) (2 ^ 53)); [reflexivity | lia].
Qed.

(** The limit and the offset of a built query: the offset is the product
    as doubles compute it. *)
Lemma getListQuery_limit_offset pagination sort filter meta query :
  getListQuery pagination sort filter meta = Ok query ->
  obj_get query "limit" = VNum (perPage pagination) /\
  obj_get query "offset" =
    VNum (js_mul (js_sub (page pagination) 1) (perPage pagination)).
Proof.
  intros H.
  apply getListQuery_Ok in H as (order & query' & _ & _ & _ & Hq' & ->).
  split; rewrite obj_get_set_ne by discriminate;
    (destruct (truthy _); [rewrite obj_get_set_ne by discriminate|]);
    subst query'; rewrite obj_get_set_ne by discriminate;
    now rewrite base_query_get by discriminate.
Qed.




(** The sort field of a query built from a well-typed sort: the order is
    lowercased under the field name. *)
Lemma getListQuery_sort_given pagination fs field order filter meta query :
  obj_get fs "field" = VStr field -> obj_get fs "order" = VStr order ->
  getListQuery pagination (VObj fs) filter meta = Ok query ->
  obj_get query "sort" = VObj [(field, VStr (toLowerCase order))].
Proof.
  intros Hfield Horder H.
  apply getListQuery_Ok in H as (order' & query' & _ & Ho & _ & Hq' & ->).
  simpl in Ho, Hq'. rewrite Horder in Ho. injection Ho as <-.
  rewrite Hfield in Hq'. simpl in Hq'.
  rewrite obj_get_set_ne by discriminate.
  destruct (truthy _); [rewrite obj_get_set_ne by discriminate|];
    subst query'; apply obj_get_set_eq.
Qed.

(** No query is ever built without a sort key. *)
Lemma getListQuery_always_sorts pagination sort filter meta query :
  getListQuery pagination sort filter meta = Ok query ->
  obj_has query "sort" = true.
Proof.
  intros H. apply getListQuery_Ok in H as (order & query' & _ & _ & _ & Hq' & ->).
  rewrite obj_has_set. simpl.
  destruct (truthy _); [rewrite obj_has_set; simpl|];
    subst query'; rewrite obj_has_set; reflexivity.
Qed.

(** C4, at the failing inputs: with an empty sort object, and with no sort
    at all, the builder throws a TypeError and builds no query, where a
    query without a sort key is expected. *)
Theorem getListQuery_no_sort_throws pagination filter meta :
  getListQuery pagination (VObj []) filter meta = Throw TypeError /\
  getListQuery pagination VUndefined filter meta = Throw TypeError.
Proof. split; reflexivity. Qed.

(** The filter field of a built query: the merged entries, each wrapped. *)
Lemma getListQuery_filter_field pagination sort filter meta query :
  getListQuery pagination sort filter meta = Ok query ->
  obj_get query "filter" =
  VObj (fold_left (fun acc kv => obj_set acc (fst kv) (equals (snd kv)))
          (if truthy (opt_prop meta "filter")
           then Object_assign (obj_without "q" (own_entries filter))
                  (get_prop meta "filter")
           else obj_without "q" (own_entries filter)) []).
Proof.
  intros H. apply getListQuery_Ok in H as (order & query' & _ & _ & _ & _ & ->).
  apply obj_get_set_eq.
Qed.

(** The wrapped entries of a merged filter whose keys extend those of the
    filter without [q]. *)
Lemma wrapped_entries (fs filters : obj) (extra mf : list string) :
  List.NoDup (keys fs) ->
  keys filters = keys (obj_without "q" fs) ++ extra ->
  List.NoDup (keys filters) ->
  (forall k, In k extra -> In k mf) ->
  (forall k, ~ In k mf -> obj_get filters k = obj_get (obj_without "q" fs) k) ->
  keys (own_entries (VObj (List.map (fun kv => (fst kv, equals (snd kv))) filters))) =
    keys (obj_without "q" fs) ++ extra /\
  List.NoDup (keys (own_entries (VObj (List.map (fun kv => (fst kv, equals (snd kv))) filters)))) /\
  (forall k, In k extra -> In k mf) /\
  (forall k v, In (k, v) fs -> k <> "q" -> ~ In k mf ->
     In (k, equals v)
        (own_entries (VObj (List.map (fun kv => (fst kv, equals (snd kv))) filters)))) /\
  (~ In "q" mf ->
   ~ In "q" (keys (own_entries (VObj (List.map (fun kv => (fst kv, equals (snd kv))) filters))))).
Proof.
  intros Hnd Hkeys Hndf Hextra Hget. simpl own_entries.
  pose proof (NoDup_keys_obj_without "q" fs Hnd) as Hrest.
  rewrite keys_map_values. repeat split; auto.
  - intros k v Hin Hk Hmeta. apply In_map_values.
    assert (Hr : In (k, v) (obj_without "q" fs)) by (apply In_obj_without; auto).
    rewrite <- (obj_get_In _ k v Hrest Hr), <- (Hget k Hmeta).
    apply In_obj_get. rewrite Hkeys. apply in_or_app. left.
    unfold keys. apply in_map_iff. now exists (k, v).
  - intros Hmeta Hin. rewrite Hkeys in Hin. apply in_app_or in Hin as [Hin|Hin].
    + now apply (not_In_keys_obj_without "q" fs).
    + auto.
Qed.

(** C7, amended: for a filter and a meta.filter without integer-like
    keys, whose numbers are safe integers, every entry of the filter other than [q] whose key [meta.filter]
    does not override is in the filter field of the query, wrapped as
    [equals:<value>] whatever the value; these entries keep their insertion
    order, ahead of the keys that only [meta.filter] brings; and [q] is a
    key of the filter field only if it is a key of [meta.filter]. *)
Theorem getListQuery_filter_wrapped pagination sort fs meta :
  List.NoDup (keys fs) -> is_SortPayload sort = true ->
  Forall (fun k => integer_like k = false) (keys fs) ->
  Forall (fun k => integer_like k = false) (keys (meta_filter meta)) ->
  printable (VObj fs) = true -> printable (VObj (meta_filter meta)) = true ->
  exists query extra,
    getListQuery pagination sort (VObj fs) meta = Ok query /\
    keys (filter_field query) = keys (obj_without "q" fs) ++ extra /\
    List.NoDup (keys (filter_field query)) /\
    (forall k, In k extra -> In k (keys (meta_filter meta))) /\
    (forall k v, In (k, v) fs -> k <> "q" ->
       ~ In k (keys (meta_filter meta)) ->
       In (k, equals v) (filter_field query)) /\
    (~ In "q" (keys (meta_filter meta)) ->
     ~ In "q" (keys (filter_field query))).
Proof.
  intros Hnd Hsort _ _ _ _.
  destruct (getListQuery_returns pagination sort (VObj fs) meta Hsort eq_refl)
    as [query Hq].
  pose proof (getListQuery_filter_field _ _ _ _ _ Hq) as Hf.
  pose proof (NoDup_keys_obj_without "q" fs Hnd) as Hrest.
  unfold meta_filter, filter_field. simpl own_entries in Hf.
  destruct (truthy (opt_prop meta "filter")).
  - destruct (Object_assign_keys (obj_without "q" fs) (get_prop meta "filter"))
      as (extra & Hk & Hex).
    pose proof (Object_assign_NoDup _ (get_prop meta "filter") Hrest) as Hndf.
    rewrite (wrap_filters _ Hndf) in Hf.
    exists query, extra. rewrite Hf. split; [assumption|].
    apply wrapped_entries; auto.
    intros k Hk'. now apply Object_assign_get_other.
  - rewrite (wrap_filters _ Hrest) in Hf.
    exists query, []. rewrite Hf. split; [assumption|].
    apply wrapped_entries; auto using app_nil_r.
Qed.

Lemma getListQuery_filter_wrapped_witness :
  exists query extra,
    getListQuery {| page := 1; perPage := 25 |}
      (VObj [("field", VStr "title"); ("order", VStr "ASC")])
      (VObj [("q", VStr "tea"); ("draft", VBool false); ("name", VStr "")])
      (VObj [("filter", VObj [("owner", VNum 7)])]) = Ok query /\
    keys (filter_field query) =
      keys (obj_without "q" [("q", VStr "tea"); ("draft", VBool false); ("name", VStr "")])
      ++ extra /\
    List.NoDup (keys (filter_field query)) /\
    (forall k, In k extra ->
       In k (keys (meta_filter (VObj [("filter", VObj [("owner", VNum 7)])])))) /\
    (forall k v,
       In (k, v) [("q", VStr "tea"); ("draft", VBool false); ("name", VStr "")] ->
       k <> "q" ->
       ~ In k (keys (meta_filter (VObj [("filter", VObj [("owner", VNum 7)])]))) ->
       In (k, equals v) (filter_field query)) /\
    (~ In "q" (keys (meta_filter (VObj [("filter", VObj [("owner", VNum 7)])]))) ->
     ~ In "q" (keys (filter_field query))).
Proof.
  apply (getListQuery_filter_wrapped {| page := 1; perPage := 25 |}
           (VObj [("field", VStr "title"); ("order", VStr "ASC")])
           [("q", VStr "tea"); ("draft", VBool false); ("name", VStr "")]
           (VObj [("filter", VObj [("owner", VNum 7)])])).
  - repeat constructor; simpl; intuition discriminate.
  - reflexivity.
  - repeat constructor.
  - repeat constructor.
  - reflexivity.
  - reflexivity.
Defined.

(** C7 as stated fails: a [meta.filter] that has the key [q] puts it into
    the wrapped filter field, and a [meta.filter] that has a key of the
    filter replaces the filter's value. *)
Lemma getListQuery_meta_filter_counterexample :
  getListQuery {| page := 1; perPage := 25 |}
    (VObj [("field", VStr "title"); ("order", VStr "ASC")])
    (VObj [("a", VNum 1)])
    (VObj [("filter", VObj [("q", VStr "x"); ("a", VNum 2)])]) =
  Ok [("limit", VNum 25); ("offset", VNum 0);
      ("sort", VObj [("title", VStr "asc")]);
      ("filter", VObj [("a", VStr "equals:2"); ("q", VStr "equals:x")])] /\
  obj_has [("a", VStr "equals:2"); ("q", VStr "equals:x")] "q" = true /\
  ~ In ("a", equals (VNum 1)) [("a", VStr "equals:2"); ("q", VStr "equals:x")].
Proof.
  repeat split. simpl. intros [H|[H|[]]]; discriminate.
Qed.

(** ** The response interpreter *)

Lemma getJsonResponse_ok res :
  status res < 400 -> getJsonResponse res = json res.
Proof.
  intros H. unfold getJsonResponse.
  destruct (json res); simpl; [|reflexivity].
  destruct (Z.geb_spec (status res) 400); [lia | reflexivity].
Qed.

Lemma getJsonResponse_error res :
  400 <= status res ->
  getJsonResponse res =
  match json res with
  | Throw e => Throw e
  | Ok data =>
      if nullish data then Throw TypeError
      else Throw (InvalidResponseError (status res) (get_prop data "errors"))
  end.
Proof.
  intros H. unfold getJsonResponse, prop.
  destruct (json res) as [data|e]; simpl; [|reflexivity].
  destruct (Z.geb_spec (status res) 400); [|lia].
  destruct (nullish data); reflexivity.
Qed.

Lemma get_prop_absent data k :
  has_property data k = false -> get_prop data k = VUndefined.
Proof.
  destruct data; simpl; try reflexivity.
  intros H. apply obj_get_absent. now apply obj_has_false.
Qed.

(** The status code can be read back from the error: the message embeds
    its decimal rendering. *)
Lemma InvalidResponseError_status s s' errors errors' :
  InvalidResponseError s errors = InvalidResponseError s' errors' -> s = s'.
Proof.
  unfold InvalidResponseError. simpl. intros [= H _].
  now apply (inj pretty).
Qed.

(** ** The dispatcher *)

Lemma app_one_neq {A} (l : list A) (x : A) : l <> l ++ [x].
Proof.
  intros H. apply (f_equal (@List.length A)) in H.
  rewrite List.length_app in H. simpl in H. lia.
Qed.

(** C8: when the response of a delete-many call has a status below 400 the
    call returns {data: ids} with the identifiers the caller passed,
    whatever the body of the response is. *)
Theorem deleteMany_echoes_ids baseUrl fetch resource params w res :
  fetch {| href := {| input := "/" +:+ resource; base := baseUrl;
                      search := stringifyQuery (VObj [("id", Params.ids params)]) |};
           options := delete_request |} = Ok res ->
  status res < 400 ->
  snd (deleteMany baseUrl fetch resource params w) =
  Ok (VObj [("data", Params.ids params)]).
Proof.
  intros Hfetch Hstatus. unfold deleteMany, bindM, await_fetch, new_URL, set_search.
  simpl. rewrite Hfetch.
  destruct (Z.geb_spec (status res) 400); [lia | reflexivity].
Qed.

Lemma deleteMany_echoes_ids_witness :
  snd (deleteMany "http://api.com"
         (always {| status := 204; json := Throw (Rejected (VStr "no content")) |})
         "resource" (bulk_params (VArr [VNum 1; VNum 2]) VUndefined) empty_world) =
  Ok (VObj [("data", VArr [VNum 1; VNum 2])]).
Proof.
  apply (deleteMany_echoes_ids "http://api.com"
           (always {| status := 204; json := Throw (Rejected (VStr "no content")) |})
           "resource" (bulk_params (VArr [VNum 1; VNum 2]) VUndefined) empty_world
           {| status := 204; json := Throw (Rejected (VStr "no content")) |}).
  - reflexivity.
  - simpl. lia.
Defined.

(** *** The monad of the operations *)

Lemma bindM_read {B} l (k : value -> M B) w :
  bindM (read l) k w =
  k (match heap w !! l with Some o => VObj o | None => VUndefined end) w.
Proof. reflexivity. Qed.

Lemma bindM_lift {A B} (r : result A) (k : A -> M B) w :
  bindM (lift r) k w =
  match r with Ok a => k a w | Throw e => (w, Throw e) end.
Proof. destruct r; reflexivity. Qed.

Lemma bindM_ret {A B} (a : A) (k : A -> M B) w : bindM (ret a) k w = k a w.
Proof. reflexivity. Qed.

Lemma bindM_assign {B} l k v (c : unit -> M B) w :
  bindM (assign l k v) c w =
  match heap w !! l with
  | Some o =>
      if (String.eqb k "__proto__" && negb (obj_has o k))%bool then c tt w
      else c tt {| heap := <[l := obj_set o k v]> (heap w);
                   args := args w; sent := sent w |}
  | None => (w, Throw TypeError)
  end.
Proof.
  unfold bindM, assign. destruct (heap w !! l); [|reflexivity].
  destruct (_ && _)%bool; reflexivity.
Qed.

(** The common tail of the operations that read a body: call the
    transport, interpret the response, shape the result.  It adds one
    request to the trace, leaves the caller's objects alone and lets the
    exceptions of the transport and of the interpreter through. *)
Lemma tail_interprets fetch url init (post : value -> M value) w :
  (forall data w0, fst (post data w0) = w0) ->
  let out :=
    bindM (await_fetch fetch url init)
      (fun res => bindM (lift (getJsonResponse res)) post) w in
  sent (fst out) = sent w ++ [{| href := url; options := init |}] /\
  heap (fst out) = heap w /\
  match fetch {| href := url; options := init |} with
  | Throw e => snd out = Throw e
  | Ok res =>
      match getJsonResponse res with
      | Throw e => snd out = Throw e
      | Ok data =>
          snd out =
          snd (post data {| heap := heap w; args := args w;
                            sent := sent w ++ [{| href := url; options := init |}] |})
      end
  end.
Proof.
  intros Hpost. unfold bindM at 1. unfold await_fetch.
  destruct (fetch _) as [res|e]; [|now repeat split].
  rewrite bindM_lift. destruct (getJsonResponse res) as [data|e]; [|now repeat split].
  rewrite (Hpost data). now repeat split.
Qed.

Ltac pure_post :=
  intros ? ?;
  repeat (rewrite bindM_lift;
          match goal with |- context [prop ?d ?k] => destruct (prop d k) end;
          try reflexivity);
  reflexivity.

(** Every operation other than the two deletes either throws before it
    calls the transport, or calls it once and hands the response to
    [getJsonResponse], whose exception it lets through. *)
Lemma non_delete_interprets baseUrl fetch op resource params w :
  is_delete op = false ->
  let out := createDataProvider baseUrl fetch op resource params w in
  (sent (fst out) = sent w /\ exists e, snd out = Throw e) \/
  (exists req,
     sent (fst out) = sent w ++ [req] /\
     match fetch req with
     | Throw e => snd out = Throw e
     | Ok res =>
         match getJsonResponse res with
         | Throw e => snd out = Throw e
         | Ok _ => True
         end
     end).
Proof.
  intros Hdel.
  assert (Htail : forall url init (post : value -> M value) w0,
             sent w0 = sent w ->
             (forall data w1, fst (post data w1) = w1) ->
             let out :=
               bindM (await_fetch fetch url init)
                 (fun res => bindM (lift (getJsonResponse res)) post) w0 in
             exists req,
               sent (fst out) = sent w ++ [req] /\
               match fetch req with
               | Throw e => snd out = Throw e
               | Ok res =>
                   match getJsonResponse res with
                   | Throw e => snd out = Throw e
                   | Ok _ => True
                   end
               end).
  { intros url init post w0 Hw0 Hpost.
    destruct (tail_interprets fetch url init post w0 Hpost) as (Hs & _ & Hr).
    eexists. rewrite <- Hw0. split; [exact Hs|].
    destruct (fetch _) as [res|e]; [|exact Hr].
    destruct (getJsonResponse res); [exact I | exact Hr]. }
  destruct op; try discriminate Hdel; clear Hdel;
    cbv zeta; cbn [createDataProvider].
  - unfold getList. rewrite bindM_read, bindM_lift.
    destruct (getListQuery _ _ _ _); [|left; eauto].
    right. apply Htail; [reflexivity | pure_post].
  - unfold getOne. right. apply Htail; [reflexivity | pure_post].
  - unfold getMany. rewrite bindM_lift.
    destruct (getMany_ids _); [|left; eauto].
    right. apply Htail; [reflexivity | pure_post].
  - unfold getManyReference. rewrite bindM_read, bindM_lift.
    destruct (getListQuery _ _ _ _); [|left; eauto].
    destruct (truthy (Params.target params)).
    + rewrite bindM_assign. destruct (heap w !! _); [|left; eauto].
      destruct (_ && _)%bool; right; (apply Htail; [reflexivity | pure_post]).
    + rewrite bindM_ret. right. apply Htail; [reflexivity | pure_post].
  - unfold create. right. apply Htail; [reflexivity | pure_post].
  - unfold update. right. apply Htail; [reflexivity | pure_post].
  - unfold updateMany. right. apply Htail; [reflexivity | pure_post].
Qed.

(** C2, amended: when the response of an operation other than the two
    deletes has a status >= 400 and its body decodes to a value other than
    null, the call throws an InvalidResponseError built from that status,
    with the [errors] of the body, which is [undefined] when the body has
    none; when decoding the body fails, the call throws that failure
    instead. *)
Theorem non_delete_error_response baseUrl fetch op resource params w req res :
  is_delete op = false ->
  sent (fst (createDataProvider baseUrl fetch op resource params w)) = sent w ++ [req] ->
  fetch req = Ok res ->
  400 <= status res ->
  (forall e, json res = Throw e ->
     snd (createDataProvider baseUrl fetch op resource params w) = Throw e) /\
  (forall data, json res = Ok data -> nullish data = false ->
     snd (createDataProvider baseUrl fetch op resource params w) =
       Throw (InvalidResponseError (status res) (get_prop data "errors")) /\
     (has_property data "errors" = false -> get_prop data "errors" = VUndefined)).
Proof.
  intros Hdel Hsent Hfetch Hstatus.
  destruct (non_delete_interprets baseUrl fetch op resource params w Hdel)
    as [[Hs _]|(req' & Hs & Hr)].
  - rewrite Hs in Hsent. now apply app_one_neq in Hsent.
  - rewrite Hs in Hsent. apply app_inj_tail in Hsent as [_ ->].
    rewrite Hfetch, (getJsonResponse_error res Hstatus) in Hr.
    split.
    + intros e He. now rewrite He in Hr.
    + intros data Hdata Hnull. rewrite Hdata, Hnull in Hr.
      split; [exact Hr | apply get_prop_absent].
Qed.

Lemma non_delete_error_response_witness :
  (forall e, json rejected_creation = Throw e ->
     snd (createDataProvider "http://api.com" (always rejected_creation) OpCreate
            "resource" (bulk_params VUndefined (VObj [("foo", VStr "bar")]))
            empty_world) = Throw e) /\
  (forall data, json rejected_creation = Ok data -> nullish data = false ->
     snd (createDataProvider "http://api.com" (always rejected_creation) OpCreate
            "resource" (bulk_params VUndefined (VObj [("foo", VStr "bar")]))
            empty_world) =
       Throw (InvalidResponseError (status rejected_creation) (get_prop data "errors")) /\
     (has_property data "errors" = false -> get_prop data "errors" = VUndefined)).
Proof.
  apply (non_delete_error_response "http://api.com" (always rejected_creation)
           OpCreate "resource" (bulk_params VUndefined (VObj [("foo", VStr "bar")]))
           empty_world
           {| href := {| input := "/resource"; base := "http://api.com"; search := "" |};
              options := json_request "POST"
                           (bulk_params VUndefined (VObj [("foo", VStr "bar")])) |}
           rejected_creation).
  - reflexivity.
  - reflexivity.
  - reflexivity.
  - simpl. lia.
Defined.

(** C2 as stated fails: on a response with status 500 whose body does not
    decode, the call throws the decoding failure, which is not an
    InvalidResponseError and carries no status. *)
Lemma decode_failure_counterexample :
  400 <= status (undecodable 500) /\
  getJsonResponse (undecodable 500) = Throw not_json /\
  snd (createDataProvider "http://api.com" (always (undecodable 500)) OpCreate
         "resource" (bulk_params VUndefined (VObj [("foo", VStr "bar")]))
         empty_world) = Throw not_json /\
  instanceof not_json CInvalidResponseError = false /\
  exn_get not_json "message" <>
    exn_get (InvalidResponseError 500 VUndefined) "message".
Proof.
  repeat split; simpl; [lia | discriminate].
Qed.

(** For a delete, a status >= 400 gives a plain [Error] whose message is
    the status. *)
Lemma delete_error baseUrl fetch resource params w res :
  fetch {| href := {| input := "/" +:+ resource +:+ "/" +:+ to_string (Params.id params);
                      base := baseUrl; search := "" |};
           options := delete_request |} = Ok res ->
  400 <= status res ->
  snd (delete baseUrl fetch resource params w) =
  Throw (Error (to_string (VNum (status res)))).
Proof.
  intros Hfetch Hstatus. unfold delete, bindM, await_fetch, new_URL.
  rewrite Hfetch. destruct (Z.geb_spec (status res) 400); [reflexivity | lia].
Qed.

Lemma deleteMany_error baseUrl fetch resource params w res :
  fetch {| href := {| input := "/" +:+ resource; base := baseUrl;
                      search := stringifyQuery (VObj [("id", Params.ids params)]) |};
           options := delete_request |} = Ok res ->
  400 <= status res ->
  snd (deleteMany baseUrl fetch resource params w) =
  Throw (InvalidResponseError (status res) VUndefined).
Proof.
  intros Hfetch Hstatus. unfold deleteMany, bindM, await_fetch, new_URL, set_search.
  simpl. rewrite Hfetch.
  destruct (Z.geb_spec (status res) 400); [reflexivity | lia].
Qed.

(** C3, at the failing input: a single delete answered 404 throws a plain
    [Error] with message 404, which is not an InvalidResponseError, while
    delete-many answered the same throws the InvalidResponseError for
    404; neither reads the body. *)
Theorem delete_404_plain_error baseUrl params w :
  snd (delete baseUrl (always (undecodable 404)) "resource" params w) =
    Throw (Error "404") /\
  instanceof (Error "404") CInvalidResponseError = false /\
  snd (deleteMany baseUrl (always (undecodable 404)) "resource" params w) =
    Throw (InvalidResponseError 404 VUndefined) /\
  instanceof (InvalidResponseError 404 VUndefined) CInvalidResponseError = true.
Proof. repeat split. Qed.

(** ** Recognising the errors *)

(** The structural check of src/error.ts recognises every
    DataProviderError, by its marker and not by its class. *)
Lemma isDataProviderError_DataProviderError statusCode errors :
  isDataProviderError (DataProviderError statusCode errors) = true.
Proof. reflexivity. Qed.

Lemma isDataProviderError_structural c c' own :
  isDataProviderError (Instance c own) = isDataProviderError (Instance c' own) /\
  isDataProviderError (Rejected (VObj own)) = isDataProviderError (Instance c own).
Proof. split; reflexivity. Qed.

(** The error class of the dispatcher has no marker. *)
Lemma isDataProviderError_InvalidResponseError statusCode errors :
  isDataProviderError (InvalidResponseError statusCode errors) = false.
Proof. reflexivity. Qed.

(** C9, at the failing input: the error a rejected creation (status 400,
    a body with validation errors) throws is an InvalidResponseError with
    that errors array and without the marker field, so the structural check
    does not recognise it. *)
Theorem create_400_error_unmarked baseUrl params w :
  snd (create baseUrl (always rejected_creation) "resource" params w) =
    Throw (InvalidResponseError 400 validation_errors) /\
  exn_get (InvalidResponseError 400 validation_errors) "_dataprovidererror" =
    VUndefined /\
  isDataProviderError (InvalidResponseError 400 validation_errors) = false /\
  isDataProviderError (DataProviderError 400 validation_errors) = true.
Proof. repeat split. Qed.

(** ** Identifier lists *)

Lemma map_ids_raw items :
  Forall (fun item => is_identifier item = true \/ is_id_object item = true) items ->
  map_ids items = Ok (List.map raw_id items).
Proof.
  induction 1 as [|item items Hitem _ IH]; simpl; [reflexivity|].
  rewrite IH. destruct Hitem as [H|H]; destruct item; try discriminate H; simpl;
    try reflexivity.
  unfold isIdObject. simpl in *. now rewrite H.
Qed.

Lemma raw_id_bare items :
  Forall (fun item => is_identifier item = true) items ->
  List.map raw_id items = items.
Proof.
  induction 1 as [|item items Hitem _ IH]; simpl; [reflexivity|].
  rewrite IH. destruct item; try discriminate Hitem; reflexivity.
Qed.

(** C5, amended: fetch-many reduces the list to the raw identifiers, in
    order, an object being replaced by its identifier field, and the
    request it sends has that list as query; the requests update-many and
    delete-many send have the caller's list as it is, which is the list of
    raw identifiers when every element is a bare identifier. *)
Theorem bulk_id_lists baseUrl fetch resource params items w :
  Params.ids params = VArr items ->
  Forall (fun item => is_identifier item = true \/ is_id_object item = true) items ->
  printable (VArr items) = true ->
  getMany_ids (Params.ids params) = Ok (VArr (List.map raw_id items)) /\
  (forall req,
     sent (fst (getMany baseUrl fetch resource params w)) = sent w ++ [req] ->
     req =
     {| href := {| input := "/" +:+ resource; base := baseUrl;
                   search := stringifyQuery (VObj [("id", VArr (List.map raw_id items))]) |};
        options := None |}) /\
  (forall req,
     sent (fst (updateMany baseUrl fetch resource params w)) = sent w ++ [req] ->
     req =
     {| href := {| input := "/" +:+ resource; base := baseUrl;
                   search := stringifyQuery (VObj [("id", VArr items)]) |};
        options := json_request "PUT" params |}) /\
  (forall req,
     sent (fst (deleteMany baseUrl fetch resource params w)) = sent w ++ [req] ->
     req =
     {| href := {| input := "/" +:+ resource; base := baseUrl;
                   search := stringifyQuery (VObj [("id", VArr items)]) |};
        options := delete_request |}) /\
  (Forall (fun item => is_identifier item = true) items ->
   List.map raw_id items = items).
Proof.
  intros Hids Hitems _.
  assert (Hg : getMany_ids (Params.ids params) = Ok (VArr (List.map raw_id items))).
  { unfold getMany_ids. rewrite Hids. simpl nullish. cbv iota.
    now rewrite (map_ids_raw items Hitems). }
  split; [exact Hg|]. repeat split.
  - intros req. unfold getMany. rewrite Hg, bindM_lift. cbv beta iota.
    match goal with
    | |- context [bindM (await_fetch _ ?url ?init) (fun _ => bindM _ ?p) ?w1] =>
        destruct (tail_interprets fetch url init p w1) as (-> & _ & _); [pure_post|]
    end.
    intros Hs. apply app_inj_tail in Hs as [_ <-]. reflexivity.
  - intros req. unfold updateMany. rewrite Hids.
    match goal with
    | |- context [bindM (await_fetch _ ?url ?init) (fun _ => bindM _ ?p) ?w1] =>
        destruct (tail_interprets fetch url init p w1) as (-> & _ & _); [pure_post|]
    end.
    intros Hs. apply app_inj_tail in Hs as [_ <-]. reflexivity.
  - intros req. unfold deleteMany, bindM, await_fetch. rewrite Hids.
    destruct (fetch _) as [res|e];
      [destruct (status res >=? 400)|]; simpl;
      intros Hs; apply app_inj_tail in Hs as [_ <-]; reflexivity.
  - apply raw_id_bare.
Qed.

Lemma bulk_id_lists_witness :
  getMany_ids
    (Params.ids (bulk_params (VArr [VNum 1; VObj [("id", VNum 2)]; VStr "c"]) VUndefined)) =
  Ok (VArr (List.map raw_id [VNum 1; VObj [("id", VNum 2)]; VStr "c"])) /\
  List.map raw_id [VNum 1; VObj [("id", VNum 2)]; VStr "c"] = [VNum 1; VNum 2; VStr "c"] /\
  sent (fst (getMany "http://api.com" (always one_item) "resource"
               (bulk_params (VArr [VNum 1; VObj [("id", VNum 2)]; VStr "c"]) VUndefined)
               empty_world)) =
  [{| href := {| input := "/resource"; base := "http://api.com";
                 search := "id[]=1&id[]=2&id[]=c" |};
      options := None |}].
Proof.
  split; [|split; reflexivity].
  apply (bulk_id_lists "http://api.com" (always one_item) "resource"
           (bulk_params (VArr [VNum 1; VObj [("id", VNum 2)]; VStr "c"]) VUndefined)
           [VNum 1; VObj [("id", VNum 2)]; VStr "c"] empty_world).
  - reflexivity.
  - repeat (constructor; [first [left; reflexivity | right; reflexivity]|]).
    constructor.
  - reflexivity.
Defined.

(** C5 as stated fails: update-many and delete-many do not reduce an object
    to its identifier; for the list [[{id: 1}]] they send [id[][id]=1]
    where the list of raw identifiers would give [id[]=1]. *)
Lemma bulk_id_object_counterexample :
  is_id_object (VObj [("id", VNum 1)]) = true /\
  sent (fst (updateMany "http://api.com" (always one_item) "resource"
               (bulk_params (VArr [VObj [("id", VNum 1)]]) (VObj [("foo", VStr "bar")]))
               empty_world)) =
  [{| href := {| input := "/resource"; base := "http://api.com";
                 search := "id[][id]=1" |};
      options := json_request "PUT"
                   (bulk_params (VArr [VObj [("id", VNum 1)]]) (VObj [("foo", VStr "bar")])) |}] /\
  sent (fst (deleteMany "http://api.com" (always one_item) "resource"
               (bulk_params (VArr [VObj [("id", VNum 1)]]) VUndefined)
               empty_world)) =
  [{| href := {| input := "/resource"; base := "http://api.com";
                 search := "id[][id]=1" |};
      options := delete_request |}] /\
  stringifyQuery (VObj [("id", VArr (List.map raw_id [VObj [("id", VNum 1)]]))]) = "id[]=1" /\
  "id[][id]=1" <> "id[]=1".
Proof. repeat split. discriminate. Qed.

(** ** Fetching by reference *)





(** The builder rejects an absent filter, so the assignment that follows
    it in getManyReference always finds the object. *)
Lemma getListQuery_no_filter pagination sort meta :
  exists e, getListQuery pagination sort VUndefined meta = Throw e.
Proof.
  destruct (getListQuery pagination sort VUndefined meta) as [query|e] eqn:E; [|eauto].
  apply getListQuery_Ok in E as (_ & _ & _ & _ & Hf & _). discriminate Hf.
Qed.

(** The request of getManyReference is the request of getList on the same
    parameters: the target and the identifier have no part in it. *)
Lemma getManyReference_sends_as_getList baseUrl fetch resource params w :
  sent (fst (getManyReference baseUrl fetch resource params w)) =
  sent (fst (getList baseUrl fetch resource params w)).
Proof.
  unfold getManyReference, getList. rewrite !bindM_read, !bindM_lift.
  destruct (heap w !! Params.filter params) as [o|] eqn:Hheap.
  - destruct (getListQuery _ _ _ _) as [query|e]; [|reflexivity].
    cbv beta iota.
    destruct (truthy (Params.target params));
      [rewrite bindM_assign, Hheap; destruct (_ && _)%bool | rewrite bindM_ret];
      match goal with
      | |- sent (fst (bindM (await_fetch _ ?url ?init) (fun _ => bindM _ ?p1) ?w1)) =
           sent (fst (bindM (await_fetch _ ?url ?init) (fun _ => bindM _ ?p2) ?w2)) =>
          destruct (tail_interprets fetch url init p1 w1) as (H1 & _ & _); [pure_post|];
          destruct (tail_interprets fetch url init p2 w2) as (H2 & _ & _); [pure_post|];
          apply (eq_trans H1); symmetry; exact H2
      end.
  - destruct (getListQuery_no_filter (Params.pagination params) (Params.sort params)
                (Params.meta params)) as [e ->].
    reflexivity.
Qed.

(** C1, at the failing input: for the call of the repository's test
    (target 'sometarget', id 1, filter {id: 1}) the query is built from the
    filter as the caller passed it; the request carries the caller's
    [filter[id]] entry and no [filter[sometarget]] entry, whatever the
    transport answers. *)
Theorem getManyReference_query_lacks_target fetch :
  getListQuery (Params.pagination reference_params) (Params.sort reference_params)
    (VObj [("id", VNum 1)]) (Params.meta reference_params) =
  Ok [("limit", VNum 25); ("offset", VNum 0);
      ("sort", VObj [("somefield", VStr "asc")]);
      ("filter", VObj [("id", VStr "equals:1")])] /\
  has_property (VObj [("id", VStr "equals:1")]) "sometarget" = false /\
  sent (fst (getManyReference "http://api.com" fetch "resource" reference_params
               reference_world)) =
  [{| href := {| input := "/resource"; base := "http://api.com";
                 search := "limit=25&offset=0&sort[somefield]=asc&filter[id]=equals%3A1" |};
      options := None |}] /\
  stringifyQuery
    (VObj [("limit", VNum 25); ("offset", VNum 0);
           ("sort", VObj [("somefield", VStr "asc")]);
           ("filter", VObj [("id", VStr "equals:1");
                            ("sometarget", VStr "equals:1")])]) =
  "limit=25&offset=0&sort[somefield]=asc&filter[id]=equals%3A1&filter[sometarget]=equals%3A1".
Proof.
  assert (Hq : getListQuery (Params.pagination reference_params)
                 (Params.sort reference_params) (VObj [("id", VNum 1)])
                 (Params.meta reference_params) =
               Ok [("limit", VNum 25); ("offset", VNum 0);
                   ("sort", VObj [("somefield", VStr "asc")]);
                   ("filter", VObj [("id", VStr "equals:1")])]) by reflexivity.
  assert (Hl : heap reference_world !! Params.filter reference_params =
               Some [("id", VNum 1)]) by reflexivity.
  repeat split.
  rewrite getManyReference_sends_as_getList. unfold getList.
  rewrite bindM_read, Hl, bindM_lift, Hq. cbv beta iota.
  match goal with
  | |- sent (fst (bindM (await_fetch _ ?url ?init) (fun _ => bindM _ ?p1) ?w1)) = _ =>
      destruct (tail_interprets fetch url init p1 w1) as (-> & _ & _); [pure_post|]
  end.
  reflexivity.
Qed.

(** ** The scenarios of the repository's tests *)

(** getList with an empty filter: the URL query of the test, and the
    envelope built from the payload. *)
Example getList_scenario :
  getList "http://api.com" (always one_item) "resource"
    {| Params.id := VUndefined; Params.ids := VUndefined;
       Params.data := VUndefined; Params.target := VUndefined;
       Params.pagination := {| page := 1; perPage := 25 |};
       Params.sort := VObj [("field", VStr "somefield"); ("order", VStr "asc")];
       Params.filter := 1%positive; Params.meta := VUndefined |}
    {| heap := {[ 1%positive := [] ]}; args := ∅; sent := [] |} =
  ({| heap := {[ 1%positive := [] ]}; args := ∅;
      sent := [{| href := {| input := "/resource"; base := "http://api.com";
                             search := "limit=25&offset=0&sort[somefield]=asc" |};
                  options := None |}] |},
   Ok (VObj [("data", VArr [VObj [("title", VStr "Item one")]]); ("total", VNum 1)])).
Proof. reflexivity. Qed.

(** getOne with includes. *)
Example getOne_scenario :
  stringifyQuery
    (VObj (getQuery (VObj [("include", VObj [("foo", VBool true);
                                             ("bar", VArr [VStr "baz"])])]))) =
  "include[foo]=true&include[bar][]=baz".
Proof. reflexivity. Qed.

(** getMany with three identifiers. *)
Example getMany_scenario :
  sent (fst (getMany "http://api.com" (always one_item) "resource"
               (bulk_params (VArr [VNum 1; VNum 2; VNum 3]) VUndefined) empty_world)) =
  [{| href := {| input := "/resource"; base := "http://api.com";
                 search := "id[]=1&id[]=2&id[]=3" |};
      options := None |}].
Proof. reflexivity. Qed.

(** A caller that passes the same filter object to a second
    getManyReference call sends the entry the first call left in it,
    wrapped once more. *)
Example getManyReference_twice :
  sent (fst (getManyReference "http://api.com" (always one_item) "resource"
               reference_params
               (fst (getManyReference "http://api.com" (always one_item) "resource"
                       reference_params reference_world)))) =
  [{| href := {| input := "/resource"; base := "http://api.com";
                 search := "limit=25&offset=0&sort[somefield]=asc&filter[id]=equals%3A1" |};
      options := None |};
   {| href := {| input := "/resource"; base := "http://api.com";
                 search := "limit=25&offset=0&sort[somefield]=asc&filter[id]=equals%3A1&filter[sometarget]=equals%3Aequals%3A1" |};
      options := None |}].
Proof. reflexivity. Qed.

(** * Further properties of the code *)

(** ** The list query, beyond its pagination and filter entries *)

(** X1: the keys of a built list query come in the order limit, offset,
    include (only when meta.include is truthy), sort, q (only when the
    filter's q is truthy), filter; include and q hold the caller's values as
    they are. *)
Theorem getListQuery_key_order pagination sort filter meta query :
  getListQuery pagination sort filter meta = Ok query ->
  exists order,
    get_prop sort "order" = VStr order /\
    query =
      [("limit", VNum (perPage pagination));
       ("offset", VNum (js_mul (js_sub (page pagination) 1) (perPage pagination)))] ++
      (if truthy (opt_prop meta "include")
       then [("include", get_prop meta "include")] else []) ++
      [("sort", VObj [(to_string (get_prop sort "field"), VStr (toLowerCase order))])] ++
      (if truthy (get_prop filter "q") then [("q", get_prop filter "q")] else []) ++
      [("filter", VObj (filter_field query))].
Proof.
  intros H. pose proof (getListQuery_filter_field _ _ _ _ _ H) as Hf.
  apply getListQuery_Ok in H as (order & query' & _ & Ho & _ & Hq' & Hq).
  exists order. split; [assumption|].
  unfold filter_field. rewrite Hf. simpl own_entries.
  rewrite Hq, Hq'. unfold getQuery, Object_assign.
  destruct (truthy (opt_prop meta "include")), (truthy (get_prop filter "q"));
    reflexivity.
Qed.

Lemma getListQuery_key_order_witness :
  exists order,
    get_prop (VObj [("field", VStr "title"); ("order", VStr "DESC")]) "order" = VStr order /\
    [("limit", VNum 10); ("offset", VNum 10);
     ("include", VObj [("author", VBool true)]);
     ("sort", VObj [("title", VStr "desc")]); ("q", VStr "tea");
     ("filter", VObj [("draft", VStr "equals:false")])] =
      [("limit", VNum 10); ("offset", VNum ((2 - 1) * 10))] ++
      (if truthy (opt_prop (VObj [("include", VObj [("author", VBool true)])]) "include")
       then [("include", get_prop (VObj [("include", VObj [("author", VBool true)])]) "include")]
       else []) ++
      [("sort", VObj [(to_string (get_prop (VObj [("field", VStr "title"); ("order", VStr "DESC")]) "field"),
                      VStr (toLowerCase order))])] ++
      (if truthy (get_prop (VObj [("q", VStr "tea"); ("draft", VBool false)]) "q")
       then [("q", get_prop (VObj [("q", VStr "tea"); ("draft", VBool false)]) "q")] else []) ++
      [("filter", VObj (filter_field
                          [("limit", VNum 10); ("offset", VNum 10);
                           ("include", VObj [("author", VBool true)]);
                           ("sort", VObj [("title", VStr "desc")]); ("q", VStr "tea");
                           ("filter", VObj [("draft", VStr "equals:false")])]))].
Proof.
  apply (getListQuery_key_order {| page := 2; perPage := 10 |}
           (VObj [("field", VStr "title"); ("order", VStr "DESC")])
           (VObj [("q", VStr "tea"); ("draft", VBool false)])
           (VObj [("include", VObj [("author", VBool true)])])).
  reflexivity.
Defined.





(** X4: the builder reads of the sort only its field and its order, and the
    order only up to letter case: two sorts with the same field and with
    orders that lowercase to the same string give the same outcome. *)
Theorem getListQuery_order_case pagination fs1 fs2 o1 o2 filter meta :
  obj_get fs1 "field" = obj_get fs2 "field" ->
  obj_get fs1 "order" = VStr o1 ->
  obj_get fs2 "order" = VStr o2 ->
  toLowerCase o1 = toLowerCase o2 ->
  getListQuery pagination (VObj fs1) filter meta =
  getListQuery pagination (VObj fs2) filter meta.
Proof.
  intros Hfield H1 H2 Hcase. unfold getListQuery, Object_keys. simpl.
  rewrite Hfield, H1, H2. simpl. rewrite Hcase. reflexivity.
Qed.

Lemma getListQuery_order_case_witness :
  getListQuery {| page := 1; perPage := 25 |}
    (VObj [("field", VStr "title"); ("order", VStr "ASC")]) (VObj []) VUndefined =
  getListQuery {| page := 1; perPage := 25 |}
    (VObj [("order", VStr "Asc"); ("label", VStr "by title"); ("field", VStr "title")])
    (VObj []) VUndefined.
Proof.
  apply (getListQuery_order_case {| page := 1; perPage := 25 |}
           [("field", VStr "title"); ("order", VStr "ASC")]
           [("order", VStr "Asc"); ("label", VStr "by title"); ("field", VStr "title")]
           "ASC" "Asc"); reflexivity.
Defined.

(** ** The operations as a whole *)

Lemma getListQuery_throws pagination sort filter meta e :
  getListQuery pagination sort filter meta = Throw e -> e = TypeError.
Proof.
  unfold getListQuery, Object_keys, prop, call_toLowerCase.
  destruct (nullish sort); simpl; [now intros [= <-]|].
  destruct (get_prop sort "order"); simpl; try (now intros [= <-]).
  destruct (nullish filter); simpl; [now intros [= <-] | discriminate].
Qed.

Lemma isIdObject_throws item e : isIdObject item = Throw e -> e = TypeError.
Proof.
  unfold isIdObject. destruct item; simpl; try discriminate. now intros [= <-].
Qed.

Lemma map_ids_throws items e : map_ids items = Throw e -> e = TypeError.
Proof.
  induction items as [|item items IH]; simpl; [discriminate|].
  destruct (isIdObject item) eqn:Ei; simpl.
  - destruct (map_ids items); simpl; [discriminate|]. intros [= <-]. now apply IH.
  - intros [= <-]. now apply isIdObject_throws in Ei.
Qed.

Lemma getMany_ids_throws ids e : getMany_ids ids = Throw e -> e = TypeError.
Proof.
  unfold getMany_ids.
  destruct ids; simpl; try (now intros [= <-]); try discriminate.
  destruct (map_ids xs) eqn:E; simpl; [discriminate|].
  intros [= <-]. now apply map_ids_throws in E.
Qed.

(** The tail of an operation, as one equation: the request joins the trace,
    the caller's objects stay, and the outcome is that of the transport,
    the interpreter and the shaping, in that order. *)
Lemma tail_outcome fetch url init (post : value -> M value)
    (shape : value -> result value) w :
  (forall data w0, post data w0 = (w0, shape data)) ->
  bindM (await_fetch fetch url init)
    (fun res => bindM (lift (getJsonResponse res)) post) w =
  ({| heap := heap w; args := args w;
      sent := sent w ++ [{| href := url; options := init |}] |},
   let? res := fetch {| href := url; options := init |} in
   let? data := getJsonResponse res in
   shape data).
Proof.
  intros Hpost. unfold bindM at 1. unfold await_fetch.
  destruct (fetch _) as [res|e]; [|reflexivity].
  cbn [bindR]. rewrite bindM_lift.
  destruct (getJsonResponse res) as [data|e]; [|reflexivity].
  apply Hpost.
Qed.

Ltac shaped :=
  intros ? ?;
  repeat (rewrite bindM_lift;
          match goal with |- context [prop ?d ?k] => destruct (prop d k) end;
          try reflexivity);
  reflexivity.

(** Every operation, in one normal form.  Either it throws a TypeError
    while it builds its query, before anything is sent and with nothing
    changed; or it sends one request and its outcome is what [finish]
    makes of the answer, the caller's objects being as before unless the
    operation is getManyReference with a truthy target. *)
Lemma operation_outcome baseUrl fetch op resource params w :
  (builds_query op = true /\
   createDataProvider baseUrl fetch op resource params w = (w, Throw TypeError)) \/
  (exists req w',
     createDataProvider baseUrl fetch op resource params w =
       (w', let? res := fetch req in finish op params res) /\
     sent w' = sent w ++ [req] /\
     args w' = args w /\
     (heap w' = heap w \/
      (op = OpGetManyReference /\ truthy (Params.target params) = true))).
Proof.
  destruct op; cbn [createDataProvider builds_query finish].
  - unfold getList. rewrite bindM_read, bindM_lift.
    destruct (getListQuery _ _ _ _) as [query|e] eqn:E.
    + right. eexists _, _. split; [apply tail_outcome; shaped|]. simpl. auto.
    + left. apply getListQuery_throws in E as ->. auto.
  - unfold getOne. right. eexists _, _.
    split; [apply (tail_outcome _ _ _ _ (fun data => Ok (VObj [("data", data)]))); shaped|].
    simpl. auto.
  - unfold getMany. rewrite bindM_lift.
    destruct (getMany_ids _) as [id|e] eqn:E.
    + right. eexists _, _. split; [apply tail_outcome; shaped|]. simpl. auto.
    + left. apply getMany_ids_throws in E as ->. auto.
  - unfold getManyReference. rewrite bindM_read, bindM_lift.
    destruct (heap w !! Params.filter params) as [o|] eqn:Hheap.
    + destruct (getListQuery _ _ _ _) as [query|e] eqn:E.
      * cbv beta iota. right.
        destruct (truthy (Params.target params)) eqn:Et.
        -- rewrite bindM_assign, Hheap.
           destruct (_ && _)%bool; eexists _, _;
             (split; [apply tail_outcome; shaped|]); simpl; auto.
        -- rewrite bindM_ret. eexists _, _.
           split; [apply tail_outcome; shaped|]. simpl. auto.
      * left. apply getListQuery_throws in E as ->. auto.
    + destruct (getListQuery_no_filter (Params.pagination params) (Params.sort params)
                  (Params.meta params)) as [e E].
      rewrite E. left. apply getListQuery_throws in E as ->. auto.
  - unfold create. right. eexists _, _.
    split; [apply (tail_outcome _ _ _ _ (fun data => Ok (VObj [("data", data)]))); shaped|].
    simpl. auto.
  - unfold update. right. eexists _, _.
    split; [apply (tail_outcome _ _ _ _ (fun data => Ok (VObj [("data", data)]))); shaped|].
    simpl. auto.
  - unfold updateMany. right. eexists _, _.
    split; [apply tail_outcome; shaped|]. simpl. auto.
  - unfold delete, bindM, await_fetch. right.
    match goal with
    | |- context [fetch ?r] =>
        exists r, {| heap := heap w; args := args w; sent := sent w ++ [r] |};
        split; [|simpl; auto]; destruct (fetch r) as [res|e]; [|reflexivity]
    end.
    simpl. destruct (status res >=? 400); reflexivity.
  - unfold deleteMany, bindM, await_fetch. right.
    match goal with
    | |- context [fetch ?r] =>
        exists r, {| heap := heap w; args := args w; sent := sent w ++ [r] |};
        split; [|simpl; auto]; destruct (fetch r) as [res|e]; [|reflexivity]
    end.
    simpl. destruct (status res >=? 400); reflexivity.
Qed.

(** X5: the interpreter returns a body exactly when the body decodes and
    the status is below 400; 399 is an answer, 400 is an error. *)
Theorem getJsonResponse_returns_iff res data :
  getJsonResponse res = Ok data <-> json res = Ok data /\ status res < 400.
Proof.
  unfold getJsonResponse, prop. destruct (json res) as [d|e]; simpl.
  - destruct (Z.geb_spec (status res) 400) as [Hge|Hlt].
    + split; [|intros [_ Hs]; lia]. destruct (nullish d); discriminate.
    + split; [intros [= ->]; split; [reflexivity | lia] | now intros [[= ->] _]].
  - split; [discriminate | now intros [? _]].
Qed.

(** X6: an operation hands at most one request to the transport; when it
    hands none, it has thrown a TypeError and changed nothing. *)
Theorem one_round_trip baseUrl fetch op resource params w :
  (exists req,
     sent (fst (createDataProvider baseUrl fetch op resource params w)) =
     sent w ++ [req]) \/
  createDataProvider baseUrl fetch op resource params w = (w, Throw TypeError).
Proof.
  destruct (operation_outcome baseUrl fetch op resource params w)
    as [[_ H]|(req & w' & -> & Hs & _)]; [now right|].
  left. now exists req.
Qed.

(** X7: when the promise of the transport is rejected, the operation that
    sent the request throws what the transport rejected with, as it is. *)
Theorem transport_failure_propagates baseUrl fetch op resource params w req e :
  sent (fst (createDataProvider baseUrl fetch op resource params w)) = sent w ++ [req] ->
  fetch req = Throw e ->
  snd (createDataProvider baseUrl fetch op resource params w) = Throw e.
Proof.
  intros Hsent Hfetch.
  destruct (operation_outcome baseUrl fetch op resource params w)
    as [[_ H]|(req' & w' & H & Hs & _)]; rewrite H in *; simpl in *.
  - now apply app_one_neq in Hsent.
  - rewrite Hs in Hsent. apply app_inj_tail in Hsent as [_ ->].
    now rewrite Hfetch.
Qed.

Lemma transport_failure_propagates_witness :
  snd (createDataProvider "http://api.com" (unreachable network_down) OpUpdate
         "resource" (item_params (VNum 1) (VObj [("foo", VStr "bar")]) VUndefined)
         empty_world) = Throw network_down.
Proof.
  apply (transport_failure_propagates "http://api.com" (unreachable network_down)
           OpUpdate "resource"
           (item_params (VNum 1) (VObj [("foo", VStr "bar")]) VUndefined) empty_world
           {| href := {| input := "/resource/1"; base := "http://api.com"; search := "" |};
              options := json_request "PUT"
                           (item_params (VNum 1) (VObj [("foo", VStr "bar")]) VUndefined) |}).
  - reflexivity.
  - reflexivity.
Defined.



(** X9: getOne, create and update answered with a status below 400 return
    the decoded body under [data], whatever the body is. *)
Theorem body_envelope baseUrl fetch op resource params w req res data :
  returns_body op = true ->
  sent (fst (createDataProvider baseUrl fetch op resource params w)) = sent w ++ [req] ->
  fetch req = Ok res ->
  status res < 400 ->
  json res = Ok data ->
  snd (createDataProvider baseUrl fetch op resource params w) =
  Ok (VObj [("data", data)]).
Proof.
  intros Hop Hsent Hfetch Hstatus Hjson.
  destruct (operation_outcome baseUrl fetch op resource params w)
    as [[_ H]|(req' & w' & H & Hs & _)]; rewrite H in *; simpl in *.
  - now apply app_one_neq in Hsent.
  - rewrite Hs in Hsent. apply app_inj_tail in Hsent as [_ ->].
    rewrite Hfetch. simpl.
    destruct op; try discriminate Hop; simpl;
      now rewrite (getJsonResponse_ok res Hstatus), Hjson.
Qed.

Lemma body_envelope_witness :
  snd (createDataProvider "http://api.com" (always item_one) OpGetOne "resource"
         (item_params (VNum 1) VUndefined VUndefined) empty_world) =
  Ok (VObj [("data", VObj [("title", VStr "Item one")])]).
Proof.
  apply (body_envelope "http://api.com" (always item_one) OpGetOne "resource"
           (item_params (VNum 1) VUndefined VUndefined) empty_world
           {| href := {| input := "/resource/1"; base := "http://api.com"; search := "" |};
              options := None |}
           item_one).
  - reflexivity.
  - reflexivity.
  - reflexivity.
  - simpl. lia.
  - reflexivity.
Defined.

(** X10: getList, getManyReference, getMany and updateMany answered with a
    status below 400 return the [items] of the body under [data], the first
    two with its [total] beside; a body without these fields gives
    undefined ones, and a null body makes the call throw a TypeError. *)
Theorem items_envelope baseUrl fetch op resource params w req res data :
  (returns_page op || returns_items op)%bool = true ->
  sent (fst (createDataProvider baseUrl fetch op resource params w)) = sent w ++ [req] ->
  fetch req = Ok res ->
  status res < 400 ->
  json res = Ok data ->
  snd (createDataProvider baseUrl fetch op resource params w) =
  if nullish data then Throw TypeError
  else Ok (VObj (("data", get_prop data "items") ::
                 if returns_page op then [("total", get_prop data "total")] else [])).
Proof.
  intros Hop Hsent Hfetch Hstatus Hjson.
  destruct (operation_outcome baseUrl fetch op resource params w)
    as [[_ H]|(req' & w' & H & Hs & _)]; rewrite H in *; simpl in *.
  - now apply app_one_neq in Hsent.
  - rewrite Hs in Hsent. apply app_inj_tail in Hsent as [_ ->].
    rewrite Hfetch. simpl.
    destruct op; try discriminate Hop; simpl;
      rewrite (getJsonResponse_ok res Hstatus), Hjson; simpl; unfold prop;
      destruct (nullish data); reflexivity.
Qed.

Lemma items_envelope_witness :
  snd (createDataProvider "http://api.com" (always one_item) OpUpdateMany "resource"
         (bulk_params (VArr [VNum 1; VNum 2]) (VObj [("foo", VStr "bar")]))
         empty_world) =
  Ok (VObj [("data", VArr [VObj [("title", VStr "Item one")]])]).
Proof.
  apply (items_envelope "http://api.com" (always one_item) OpUpdateMany "resource"
           (bulk_params (VArr [VNum 1; VNum 2]) (VObj [("foo", VStr "bar")]))
           empty_world
           {| href := {| input := "/resource"; base := "http://api.com";
                         search := "id[]=1&id[]=2" |};
              options := json_request "PUT"
                           (bulk_params (VArr [VNum 1; VNum 2]) (VObj [("foo", VStr "bar")])) |}
           one_item
           (VObj [("items", VArr [VObj [("title", VStr "Item one")]]); ("total", VNum 1)])).
  - reflexivity.
  - reflexivity.
  - reflexivity.
  - simpl. lia.
  - reflexivity.
Defined.

(** X11: a delete answered with a status below 400 returns {data: {}},
    whatever the response holds and without reading its body. *)
Theorem delete_returns_empty baseUrl fetch resource params w res :
  fetch {| href := {| input := "/" +:+ resource +:+ "/" +:+ to_string (Params.id params);
                      base := baseUrl; search := "" |};
           options := delete_request |} = Ok res ->
  status res < 400 ->
  snd (delete baseUrl fetch resource params w) = Ok (VObj [("data", VObj [])]).
Proof.
  intros Hfetch Hstatus. unfold delete, bindM, await_fetch, new_URL.
  rewrite Hfetch. destruct (Z.geb_spec (status res) 400); [lia | reflexivity].
Qed.

Lemma delete_returns_empty_witness :
  snd (delete "http://api.com" (always (undecodable 204)) "resource"
         (item_params (VNum 1) VUndefined VUndefined) empty_world) =
  Ok (VObj [("data", VObj [])]).
Proof.
  apply (delete_returns_empty "http://api.com" (always (undecodable 204)) "resource"
           (item_params (VNum 1) VUndefined VUndefined) empty_world (undecodable 204)).
  - reflexivity.
  - simpl. lia.
Defined.

(** ** Identifier lists *)

Lemma map_ids_reduces items :
  map_ids items =
  if existsb is_null items then Throw TypeError
  else Ok (List.map reduce_item items).
Proof.
  induction items as [|item items IH]; simpl; [reflexivity|].
  rewrite IH. destruct item; simpl; try reflexivity;
    destruct (existsb is_null items); reflexivity.
Qed.

(** X12: on an array, the reduction of getMany throws a TypeError when an
    element is null, and otherwise returns the array of the same length in
    which an object with an id field is replaced by that field and every
    other element, arrays and objects without id included, is kept. *)
Theorem getMany_ids_reduces items :
  getMany_ids (VArr items) =
  if existsb is_null items then Throw TypeError
  else Ok (VArr (List.map reduce_item items)).
Proof.
  unfold getMany_ids. simpl. rewrite map_ids_reduces.
  destruct (existsb is_null items); reflexivity.
Qed.

(** X13: when [ids] is neither nullish nor an array, or is an array with a
    null element, getMany throws a TypeError, sends nothing and changes
    nothing. *)
Theorem getMany_bad_ids baseUrl fetch resource params w :
  match Params.ids params with
  | VArr items => existsb is_null items = true
  | ids => nullish ids = false
  end ->
  getMany baseUrl fetch resource params w = (w, Throw TypeError).
Proof.
  intros H. unfold getMany. rewrite bindM_lift.
  destruct (Params.ids params) as [| | | | |items|]; try discriminate H;
    try reflexivity.
  unfold getMany_ids. simpl. now rewrite map_ids_reduces, H.
Qed.

Lemma getMany_bad_ids_witness :
  getMany "http://api.com" (always one_item) "resource"
    (bulk_params (VArr [VNum 1; VNull; VNum 3]) VUndefined) empty_world =
  (empty_world, Throw TypeError).
Proof.
  apply (getMany_bad_ids "http://api.com" (always one_item) "resource"
           (bulk_params (VArr [VNum 1; VNull; VNum 3]) VUndefined) empty_world).
  reflexivity.
Defined.



(** ** Requests *)

(** X15: the request getOne sends has no options and goes to
    /resource/id; its query is empty unless meta.include is truthy, and is
    then the encoding of {include: meta.include}. *)
Theorem getOne_request baseUrl fetch resource params w req :
  printable (Params.id params) = true ->
  printable (get_prop (Params.meta params) "include") = true ->
  sent (fst (getOne baseUrl fetch resource params w)) = sent w ++ [req] ->
  req =
  {| href :=
       {| input := "/" +:+ resource +:+ "/" +:+ to_string (Params.id params);
          base := baseUrl;
          search :=
            if truthy (opt_prop (Params.meta params) "include")
            then stringifyQuery
                   (VObj [("include", get_prop (Params.meta params) "include")])
            else "" |};
     options := None |}.
Proof.
  intros _ _. unfold getOne.
  match goal with
  | |- context [bindM (await_fetch _ ?url ?init) (fun _ => bindM _ ?p) ?w1] =>
      destruct (tail_interprets fetch url init p w1) as (-> & _ & _); [pure_post|]
  end.
  intros Hs. apply app_inj_tail in Hs as [_ <-].
  unfold getQuery, set_search, new_URL. simpl.
  destruct (truthy (opt_prop (Params.meta params) "include")); reflexivity.
Qed.

Lemma getOne_request_witness :
  {| href := {| input := "/resource/1"; base := "http://api.com";
                search := "include[foo]=true&include[bar][]=baz" |};
     options := None |} =
  {| href :=
       {| input := "/" +:+ "resource" +:+ "/" +:+
                   to_string (Params.id (item_params (VNum 1) VUndefined
                     (VObj [("include", VObj [("foo", VBool true); ("bar", VArr [VStr "baz"])])])));
          base := "http://api.com";
          search :=
            if truthy (opt_prop (Params.meta (item_params (VNum 1) VUndefined
                 (VObj [("include", VObj [("foo", VBool true); ("bar", VArr [VStr "baz"])])]))) "include")
            then stringifyQuery
                   (VObj [("include", get_prop (Params.meta (item_params (VNum 1) VUndefined
                      (VObj [("include", VObj [("foo", VBool true); ("bar", VArr [VStr "baz"])])]))) "include")])
            else "" |};
     options := None |}.
Proof.
  apply (getOne_request "http://api.com" (always item_one) "resource"
           (item_params (VNum 1) VUndefined
              (VObj [("include", VObj [("foo", VBool true); ("bar", VArr [VStr "baz"])])]))
           empty_world); reflexivity.
Defined.

(** X16: the request create, update and updateMany send has method POST,
    PUT and PUT, the JSON text of [params.data] as body and the JSON
    content type as only header; create posts to /resource, update puts to
    /resource/id, and updateMany puts to /resource with the ids as
    query. *)
Theorem mutating_requests baseUrl fetch resource params w :
  (forall req,
     sent (fst (create baseUrl fetch resource params w)) = sent w ++ [req] ->
     req =
     {| href := {| input := "/" +:+ resource; base := baseUrl; search := "" |};
        options := Some {| method := "POST";
                           body := Some (JSON_stringify (Params.data params));
                           headers := [("Content-Type", "application/json")] |} |}) /\
  (forall req,
     printable (Params.id params) = true ->
     sent (fst (update baseUrl fetch resource params w)) = sent w ++ [req] ->
     req =
     {| href := {| input := "/" +:+ resource +:+ "/" +:+ to_string (Params.id params);
                   base := baseUrl; search := "" |};
        options := Some {| method := "PUT";
                           body := Some (JSON_stringify (Params.data params));
                           headers := [("Content-Type", "application/json")] |} |}) /\
  (forall req,
     printable (Params.ids params) = true ->
     sent (fst (updateMany baseUrl fetch resource params w)) = sent w ++ [req] ->
     req =
     {| href := {| input := "/" +:+ resource; base := baseUrl;
                   search := stringifyQuery (VObj [("id", Params.ids params)]) |};
        options := Some {| method := "PUT";
                           body := Some (JSON_stringify (Params.data params));
                           headers := [("Content-Type", "application/json")] |} |}).
Proof.
  split; [|split]; intros req; [|intros _|intros _];
    unfold create, update, updateMany;
    match goal with
    | |- context [bindM (await_fetch _ ?url ?init) (fun _ => bindM _ ?p) ?w1] =>
        destruct (tail_interprets fetch url init p w1) as (-> & _ & _); [pure_post|]
    end; intros Hs; apply app_inj_tail in Hs as [_ <-]; reflexivity.
Qed.

(** X17: getManyReference behaves towards the transport and towards its
    caller's result as getList does on the same parameters: same trace of
    requests, same outcome. *)
Theorem getManyReference_as_getList baseUrl fetch resource params w :
  sent (fst (getManyReference baseUrl fetch resource params w)) =
    sent (fst (getList baseUrl fetch resource params w)) /\
  snd (getManyReference baseUrl fetch resource params w) =
    snd (getList baseUrl fetch resource params w).
Proof.
  pose proof (getManyReference_sends_as_getList baseUrl fetch resource params w) as Hs.
  split; [exact Hs|].
  destruct (operation_outcome baseUrl fetch OpGetManyReference resource params w)
    as [[_ H1]|(r1 & w1 & H1 & Hs1 & _)];
  destruct (operation_outcome baseUrl fetch OpGetList resource params w)
    as [[_ H2]|(r2 & w2 & H2 & Hs2 & _)];
  cbn [createDataProvider] in H1, H2; rewrite H1, H2 in *; simpl in *.
  - reflexivity.
  - rewrite Hs2 in Hs. now apply app_one_neq in Hs.
  - rewrite Hs1 in Hs. symmetry in Hs. now apply app_one_neq in Hs.
  - rewrite Hs1, Hs2 in Hs. apply app_inj_tail in Hs as [_ ->]. reflexivity.
Qed.

(** ** Errors *)

(** X18: an error of either class carries its status code in its message
    only: it has no status field, and two errors have the same message only
    if they were built from the same status code. *)
Theorem error_status_in_message s errors :
  exn_get (InvalidResponseError s errors) "status" = VUndefined /\
  exn_get (DataProviderError s errors) "status" = VUndefined /\
  exn_get (InvalidResponseError s errors) "message" =
    exn_get (DataProviderError s errors) "message" /\
  (forall s' errors',
     exn_get (InvalidResponseError s errors) "message" =
     exn_get (InvalidResponseError s' errors') "message" -> s = s') /\
  (forall s' errors',
     exn_get (DataProviderError s errors) "message" =
     exn_get (DataProviderError s' errors') "message" -> s = s').
Proof.
  repeat split; simpl; intros s' _ [= H]; now apply (inj pretty).
Qed.

(** X19: the structural check accepts exactly the objects that have the
    marker key, whatever the value under it and whatever their class: an
    error instance or a plain object with the key passes, everything else,
    null, arrays and primitives included, does not. *)
Theorem isDataProviderError_iff error :
  isDataProviderError error = true <->
  exists own,
    In "_dataprovidererror" (keys own) /\
    ((exists c, error = Instance c own) \/ error = Rejected (VObj own)).
Proof.
  split.
  - destruct error as [c own|v]; simpl.
    + intros H. exists own. split; [now apply obj_has_In | eauto].
    + destruct v; simpl; try discriminate; rewrite ?andb_false_r; try discriminate.
      intros H. exists fields. split; [now apply obj_has_In | auto].
  - intros (own & Hk & [[c ->]| ->]); simpl; now apply obj_has_In.
Qed.

(** ** The encoder of values *)

Lemma encode_unreserved s :
  string_forall Qs.unreserved s = true -> Qs.encode s = s.
Proof.
  induction s as [|c s IH]; simpl; [reflexivity|].
  intros H. apply andb_true_iff in H as [-> H]. now rewrite IH.
Qed.

(** *** Numbers are made of unreserved characters *)

Lemma pretty_N_char_unreserved d : Qs.unreserved (pretty_N_char d) = true.
Proof. unfold pretty_N_char. repeat case_match; reflexivity. Qed.

Lemma pretty_N_go_unreserved x s :
  string_forall Qs.unreserved s = true ->
  string_forall Qs.unreserved (pretty_N_go x s) = true.
Proof.
  revert s. induction (N.lt_wf_0 x) as [x _ IH]; intros s Hs.
  destruct (N.eq_dec x 0%N) as [->|Hx]; [now rewrite pretty_N_go_0|].
  rewrite pretty_N_go_step by lia. apply IH.
  - apply N.div_lt; lia.
  - simpl. now rewrite pretty_N_char_unreserved.
Qed.

Lemma pretty_N_unreserved (x : N) : string_forall Qs.unreserved (pretty x) = true.
Proof.
  unfold pretty, pretty_N. case_decide; [reflexivity|].
  now apply pretty_N_go_unreserved.
Qed.

Lemma pretty_Z_unreserved (z : Z) : string_forall Qs.unreserved (pretty z) = true.
Proof.
  destruct z as [|p|p]; [reflexivity| |].
  - apply (pretty_N_unreserved (Npos p)).
  - change (pretty (Z.neg p)) with ("-" +:+ pretty (Npos p)). simpl.
    apply (pretty_N_unreserved (Npos p)).
Qed.

Lemma encode_number (z : Z) : Qs.encode (pretty z) = pretty z.
Proof. apply encode_unreserved, pretty_Z_unreserved. Qed.

Lemma append_assoc (a b c : string) : (a +:+ b) +:+ c = a +:+ b +:+ c.
Proof.
  induction a as [|x a IH]; [reflexivity|].
  change (String x ((a +:+ b) +:+ c) = String x (a +:+ b +:+ c)). now f_equal.
Qed.

(** X21: the request getList sends for an empty filter object, a sort of
    two strings with an ASCII order and a meta that brings neither include
    nor filter is limit=<perPage>&offset=<(page-1)*perPage>&sort[<field>]=
    <order>, for numbers on which the arithmetic is exact: the numbers are
    in decimal, the order is lowercased and encoded, and the empty filter
    leaves no trace in the query. *)
Theorem getList_plain_request baseUrl fetch resource params w fs field order req :
  heap w !! Params.filter params = Some [] ->
  Params.sort params = VObj fs ->
  obj_get fs "field" = VStr field ->
  obj_get fs "order" = VStr order ->
  ascii_only order = true ->
  truthy (opt_prop (Params.meta params) "include") = false ->
  truthy (opt_prop (Params.meta params) "filter") = false ->
  safe_integer (perPage (Params.pagination params)) ->
  safe_integer (page (Params.pagination params) - 1) ->
  safe_integer ((page (Params.pagination params) - 1) *
                perPage (Params.pagination params)) ->
  sent (fst (getList baseUrl fetch resource params w)) = sent w ++ [req] ->
  req =
  {| href :=
       {| input := "/" +:+ resource; base := baseUrl;
          search :=
            "limit=" +:+ pretty (perPage (Params.pagination params)) +:+
            "&offset=" +:+
            pretty ((page (Params.pagination params) - 1) *
                    perPage (Params.pagination params)) +:+
            "&sort[" +:+ field +:+ "]=" +:+ Qs.encode (toLowerCase order) |};
     options := None |}.
Proof.
  intros Hheap Hsort Hfield Horder _ Hinc Hmf _ Hpage Hoffset.
  unfold getList. rewrite bindM_read, Hheap, bindM_lift.
  unfold getListQuery, Object_keys, getQuery. rewrite Hsort, Hinc, Hmf. simpl.
  rewrite Hfield, Horder. simpl.
  match goal with
  | |- context [bindM (await_fetch _ ?url ?init) (fun _ => bindM _ ?p) ?w1] =>
      destruct (tail_interprets fetch url init p w1) as (-> & _ & _); [pure_post|]
  end.
  intros Hs. apply app_inj_tail in Hs as [_ <-].
  unfold set_search, new_URL, stringifyQuery, Qs.stringify, js_mul, js_sub. simpl.
  rewrite (to_double_safe _ Hpage), (to_double_safe _ Hoffset).
  rewrite !encode_number, !append_assoc. reflexivity.
Qed.

Lemma getList_plain_request_witness :
  {| href := {| input := "/resource"; base := "http://api.com";
                search := "limit=25&offset=50&sort[somefield]=asc" |};
     options := None |} =
  {| href :=
       {| input := "/" +:+ "resource"; base := "http://api.com";
          search :=
            "limit=" +:+ pretty 25 +:+ "&offset=" +:+ pretty ((3 - 1) * 25) +:+
            "&sort[" +:+ "somefield" +:+ "]=" +:+ Qs.encode (toLowerCase "ASC") |};
     options := None |}.
Proof.
  apply (getList_plain_request "http://api.com" (always one_item) "resource"
           (list_params {| page := 3; perPage := 25 |}
              (VObj [("field", VStr "somefield"); ("order", VStr "ASC")]) VUndefined)
           {| heap := {[ 1%positive := [] ]}; args := ∅; sent := [] |}
           [("field", VStr "somefield"); ("order", VStr "ASC")] "somefield" "ASC");
    unfold safe_integer; simpl; first [reflexivity | lia].
Defined.

(** ** More on the list query *)

Lemma lower_ascii_not_upper c : is_upper (lower_ascii c) = false.
Proof. destruct c as [[] [] [] [] [] [] [] []]; vm_compute; reflexivity. Qed.

Lemma lower_ascii_idem c : lower_ascii (lower_ascii c) = lower_ascii c.
Proof. destruct c as [[] [] [] [] [] [] [] []]; vm_compute; reflexivity. Qed.

Lemma toLowerCase_no_upper s :
  string_forall (fun c => negb (is_upper c)) (toLowerCase s) = true.
Proof.
  induction s as [|c s IH]; simpl; [reflexivity|].
  now rewrite lower_ascii_not_upper, IH.
Qed.

Lemma toLowerCase_idem s : toLowerCase (toLowerCase s) = toLowerCase s.
Proof.
  induction s as [|c s IH]; simpl; [reflexivity|].
  now rewrite lower_ascii_idem, IH.
Qed.

Lemma getListQuery_sort_field pagination sort filter meta query :
  getListQuery pagination sort filter meta = Ok query ->
  exists order,
    get_prop sort "order" = VStr order /\
    obj_get query "sort" =
    VObj [(to_string (get_prop sort "field"), VStr (toLowerCase order))].
Proof.
  intros H. apply getListQuery_Ok in H as (order & query' & _ & Ho & _ & Hq' & ->).
  exists order. split; [assumption|].
  rewrite obj_get_set_ne by discriminate.
  destruct (truthy _); [rewrite obj_get_set_ne by discriminate|];
    subst query'; apply obj_get_set_eq.
Qed.

(** X22: the sort of every built query is an object with a single entry,
    whose value is a string without any ASCII capital letter and which
    lowercasing leaves as it is. *)
Theorem getListQuery_sort_lowercase pagination sort filter meta query :
  getListQuery pagination sort filter meta = Ok query ->
  exists field order,
    obj_get query "sort" = VObj [(field, VStr order)] /\
    string_forall (fun c => negb (is_upper c)) order = true /\
    toLowerCase order = order.
Proof.
  intros H. apply getListQuery_sort_field in H as (order & _ & ->).
  eexists _, _. split; [reflexivity|].
  split; [apply toLowerCase_no_upper | apply toLowerCase_idem].
Qed.

Lemma getListQuery_sort_lowercase_witness :
  exists field order,
    obj_get [("limit", VNum 25); ("offset", VNum 0);
             ("sort", VObj [("somefield", VStr "desc")]); ("filter", VObj [])] "sort" =
      VObj [(field, VStr order)] /\
    string_forall (fun c => negb (is_upper c)) order = true /\
    toLowerCase order = order.
Proof.
  apply (getListQuery_sort_lowercase {| page := 1; perPage := 25 |}
           (VObj [("field", VStr "somefield"); ("order", VStr "DeSC")]) (VObj [])
           VUndefined).
  reflexivity.
Defined.

(** Rounding keeps the sign. *)
Lemma to_double_negative z : z < 0 -> to_double z < 0.
Proof.
  intros Hz. unfold to_double.
  destruct (Z.ltb_spec (Z.abs z) (2 ^ 53)) as [|Ha]; [assumption|].
  cbv zeta. set (a := Z.abs z) in *. set (e := Z.log2 a - 52).
  assert (He : 1 <= e).
  { pose proof (Z.log2_le_mono _ _ Ha) as Hl.
    rewrite Z.log2_pow2 in Hl by lia. subst e. lia. }
  assert (Hq : 0 < Z.shiftr a e).
  { rewrite Z.shiftr_div_pow2 by lia. apply Z.div_str_pos. split; [lia|].
    transitivity (2 ^ Z.log2 a).
    - apply Z.pow_le_mono_r; subst e; lia.
    - apply Z.log2_spec. lia. }
  rewrite (Z.sgn_neg z Hz).
  match goal with
  | |- _ * Z.shiftl ?q' e < 0 => assert (Hq' : 0 < Z.shiftl q' e); [|lia]
  end.
  rewrite Z.shiftl_mul_pow2 by lia. apply Z.mul_pos_pos; [|lia].
  destruct (_ || _)%bool; lia.
Qed.

(** X23: the builder does not validate the pagination: with a page below 1
    and a positive perPage it builds, on otherwise well-formed parameters, a
    query whose offset is negative. *)
Theorem getListQuery_negative_offset pagination sort filter meta :
  page pagination < 1 -> 0 < perPage pagination ->
  is_SortPayload sort = true -> nullish filter = false ->
  exists query offset,
    getListQuery pagination sort filter meta = Ok query /\
    obj_get query "offset" = VNum offset /\ offset < 0.
Proof.
  intros Hpage Hper Hsort Hfilter.
  destruct (getListQuery_returns pagination sort filter meta Hsort Hfilter) as [query H].
  exists query, (js_mul (js_sub (page pagination) 1) (perPage pagination)).
  split; [assumption|].
  split; [now apply (getListQuery_limit_offset _ sort filter meta)|].
  unfold js_mul. apply to_double_negative.
  assert (js_sub (page pagination) 1 < 0) by (apply to_double_negative; lia).
  nia.
Qed.

Lemma getListQuery_negative_offset_witness :
  exists query offset,
    getListQuery {| page := 0; perPage := 25 |}
      (VObj [("field", VStr "title"); ("order", VStr "ASC")]) (VObj []) VUndefined =
      Ok query /\
    obj_get query "offset" = VNum offset /\ offset < 0.
Proof.
  apply (getListQuery_negative_offset {| page := 0; perPage := 25 |}
           (VObj [("field", VStr "title"); ("order", VStr "ASC")]) (VObj []) VUndefined);
    simpl; first [lia | reflexivity].
Defined.

(** ** Bulk writes without identifiers *)


